(** * Craigslist task generator: URL construction, task assembly, CSV export

    A shallow embedding of [craigslist_complex_generator.py].

    Representation choices:
    - a Python [str] is a [string] holding its UTF-8 bytes; concatenation,
      equality and [startswith] on the bytes agree with Python's on the
      code points, and [urllib.parse.quote] works on exactly these bytes;
    - a Python [dict] that is iterated ([params], a CSV row) is an
      association list in insertion order; a [dict] that is only looked up
      ([REGIONS]) or the file system is a [gmap];
    - exceptions are values of [exn], carried by the [result] monad; the part
      of [main] that touches the file system runs in a state-and-error monad
      over the files, and what [open] does with a path is given by the
      operating system, an [opener]. Console output is not part of
      the model; of the summary that [main] prints, the counts and the order
      of the category lines are. *)

From Stdlib Require Import ZArith Lia Ascii String Numbers.DecimalString.
From stdpp Require Import base option list sorting strings gmap.

Local Open Scope string_scope.
Local Open Scope list_scope.

(* ===================================================================== *)
(** ** Python built-ins and library functions used by the program        *)
(* ===================================================================== *)

Module Py.

(** [str(n)] for an [int]. *)
Definition str_of_int (z : Z) : string :=
  NilEmpty.string_of_int (Z.to_int z).

(** [f"{i}"] for the index handed out by [enumerate]. *)
Definition str_of_nat (n : nat) : string :=
  NilEmpty.string_of_uint (Nat.to_uint n).

Definition in_range (lo hi : N) (c : ascii) : bool :=
  let n := N_of_ascii c in ((lo <=? n) && (n <=? hi))%N.

Definition is_upper : ascii -> bool := in_range 65 90.
Definition is_lower : ascii -> bool := in_range 97 122.
Definition is_digit : ascii -> bool := in_range 48 57.

Definition char_in (c : ascii) (s : string) : bool :=
  existsb (Ascii.eqb c) (list_ascii_of_string s).

(** [urllib.parse._ALWAYS_SAFE]: letters, digits and [_.-~] (the tilde is
    in the set from Python 3.7 on). *)
Definition always_safe (c : ascii) : bool :=
  is_upper c || is_lower c || is_digit c || char_in c "_.-~".

Definition hex_upper (n : N) : ascii :=
  nth (N.to_nat n) (list_ascii_of_string "0123456789ABCDEF") "0"%char.

Definition hex_lower (n : N) : ascii :=
  nth (N.to_nat n) (list_ascii_of_string "0123456789abcdef") "0"%char.

(** The quoter of [quote_from_bytes] with the default [safe='/']:
    a safe byte is kept, any other becomes [%XX] in upper-case hex. *)
Definition quote_byte (c : ascii) : string :=
  if always_safe c || char_in c "/" then String c EmptyString
  else
    let n := N_of_ascii c in
    String "%" (String (hex_upper (n / 16)) (String (hex_upper (n mod 16)) EmptyString)).

(** [urllib.parse.quote(s)]: every UTF-8 byte goes through the quoter. *)
Fixpoint quote (s : string) : string :=
  match s with
  | EmptyString => EmptyString
  | String c s' => quote_byte c +:+ quote s'
  end.

(** [sep.join(l)]. *)
Definition join (sep : string) (l : list string) : string :=
  String.concat sep l.

(** [s.startswith(p)]. *)
Definition startswith (s p : string) : bool := String.prefix p s.

Definition squote : ascii := ascii_of_nat 39.
Definition dquote : ascii := ascii_of_nat 34.
Definition backslash : ascii := ascii_of_nat 92.

(** One character of [repr(s)] inside the quotes [q]. *)
Definition repr_char (q c : ascii) : string :=
  let n := N_of_ascii c in
  if Ascii.eqb c q || Ascii.eqb c backslash then String backslash (String c EmptyString)
  else if (n =? 9)%N then String backslash "t"
  else if (n =? 10)%N then String backslash "n"
  else if (n =? 13)%N then String backslash "r"
  else if (n <? 32)%N || (n =? 127)%N then
    String backslash (String "x" (String (hex_lower (n / 16)) (String (hex_lower (n mod 16)) EmptyString)))
  else String c EmptyString.

(** [repr(s)] for a [str]: single quotes, unless the text has a single
    quote and no double quote. Bytes from 128 up are copied, as [repr]
    does for the printable characters they encode. A character from 128 up
    that Unicode does not count as printable (the no-break space, say) is
    escaped by Python; telling those apart takes the Unicode tables, and
    such a character is outside this definition. *)
Definition repr_str (s : string) : string :=
  let q := if char_in squote s && negb (char_in dquote s) then dquote else squote in
  String q (fold_right (fun c acc => repr_char q c +:+ acc) (String q EmptyString)
                       (list_ascii_of_string s)).

End Py.

(* ===================================================================== *)
(** ** Data model                                                         *)
(* ===================================================================== *)

(** A scalar filter value: a string or a number. *)
Inductive scalar : Type :=
  | SStr (s : string)
  | SInt (z : Z).

(** A filter value: a scalar, or a list of scalars. *)
Inductive value : Type :=
  | VScalar (x : scalar)
  | VList (l : list scalar).

Coercion VScalar : scalar >-> value.

(** The ordered filter-parameter mapping handed to [build_url], as the
    list of its items in insertion order. A list with a repeated key is no
    [dict]; what is proved for all lists holds for the dicts among them. *)
Definition params_t : Type := list (string * value).

Definition str_scalar (x : scalar) : string :=
  match x with
  | SStr s => s
  | SInt z => Py.str_of_int z
  end.

Definition repr_scalar (x : scalar) : string :=
  match x with
  | SStr s => Py.repr_str s
  | SInt z => Py.str_of_int z
  end.

(** [str(value)], which is also what [f"{value}"] formats. *)
Definition py_str (v : value) : string :=
  match v with
  | VScalar x => str_scalar x
  | VList l => "[" +:+ Py.join ", " (map repr_scalar l) +:+ "]"
  end.

(* ===================================================================== *)
(** ** build_url                                                          *)
(* ===================================================================== *)

Definition fragment : string := "#search=2~gallery~0".

(** The two parameter names whose value is percent-encoded. *)
Definition is_quoted_key (key : string) : bool :=
  String.eqb key "query" || String.eqb key "auto_make_model".

(** One turn of [for key, value in params.items()], with the list
    [encoded_params] as the accumulator that [append] grows at its end. *)
Definition encode_step (encoded_params : list string) (kv : string * value) : list string :=
  let '(key, value) := kv in
  if is_quoted_key key then
    encoded_params ++ [key +:+ "=" +:+ Py.quote (py_str value)]
  else
    match value with
    | VList l =>
        fold_left (fun acc v => acc ++ [key +:+ "=" +:+ str_scalar v]) l encoded_params
    | VScalar x =>
        encoded_params ++ [key +:+ "=" +:+ str_scalar x]
    end.

(** The whole loop, from [encoded_params = []]. *)
Definition encode_params (params : params_t) : list string :=
  fold_left encode_step params [].

Definition build_url (base_url category_code : string) (params : params_t) : string :=
  let url := base_url +:+ "/search/" +:+ category_code in
  let url :=
    match params with
    | [] => url
    | _ :: _ =>
        let encoded_params := encode_params params in
        url +:+ ("?" +:+ Py.join "&" encoded_params)
    end in
  url +:+ fragment.

(* ===================================================================== *)
(** ** Exceptions                                                         *)
(* ===================================================================== *)

Inductive exn : Type :=
  | KeyError (key : string)
  | ValueError (msg : string)
  | AssertionError (msg : string)
  | OSError (msg : string)
  | SystemExit (code : Z).

Inductive result (A : Type) : Type :=
  | Ok (a : A)
  | Raise (e : exn).

Arguments Ok {A} a.
Arguments Raise {A} e.

#[export] Instance result_ret : MRet result := fun A a => Ok a.

#[export] Instance result_bind : MBind result := fun A B f m =>
  match m with
  | Ok a => f a
  | Raise e => Raise e
  end.

(* ===================================================================== *)
(** ** Regions                                                            *)
(* ===================================================================== *)

Record region_config : Type := {
  url_prefix : string;
  region_location : string;
  region_timezone : string
}.

(** The literal of [REGIONS], in source order. *)
Definition REGIONS_items : list (string * region_config) :=
  [ ("sfbay",
     {| url_prefix := "https://sfbay.craigslist.org";
        region_location := "San Francisco, CA, United States";
        region_timezone := "America/Los_Angeles" |});
    ("losangeles",
     {| url_prefix := "https://losangeles.craigslist.org";
        region_location := "Los Angeles, CA, United States";
        region_timezone := "America/Los_Angeles" |});
    ("newyork",
     {| url_prefix := "https://newyork.craigslist.org";
        region_location := "New York, NY, United States";
        region_timezone := "America/New_York" |});
    ("seattle",
     {| url_prefix := "https://seattle.craigslist.org";
        region_location := "Seattle, WA, United States";
        region_timezone := "America/Los_Angeles" |});
    ("chicago",
     {| url_prefix := "https://chicago.craigslist.org";
        region_location := "Chicago, IL, United States";
        region_timezone := "America/Chicago" |}) ].

Definition REGIONS : gmap string region_config := list_to_map REGIONS_items.

(** [REGIONS[region]]. *)
Definition REGIONS_getitem (region : string) : result region_config :=
  match REGIONS !! region with
  | Some region_config => Ok region_config
  | None => Raise (KeyError region)
  end.

(* ===================================================================== *)
(** ** Task records and the literal task tables                           *)
(* ===================================================================== *)

Record TaskConfig : Type := {
  task_id : string;
  task : string;
  url : string;
  gt_urls : list (list string);
  location : string;
  timezone : string;
  difficulty : string;
  l2_category : string
}.

(** One entry of a task table: the keys ["task"], ["params"], ["difficulty"]. *)
Record task_data : Type := {
  td_task : string;
  td_params : params_t;
  td_difficulty : string
}.

(** A string literal as a filter value. *)
Definition str (s : string) : value := VScalar (SStr s).

Definition car_tasks : list task_data :=
  [
    (* BASIC FILTERS (5 tasks) *)
    {| td_task := "Find Toyota cars with images priced under $15,000.";
       td_params := [("auto_make_model", str "toyota"); ("hasPic", str "1"); ("max_price", str "15000")];
       td_difficulty := "medium" |};
    {| td_task := "Browse Honda Accord cars sold by owners.";
       td_params := [("auto_make_model", str "honda accord"); ("purveyor", str "owner")];
       td_difficulty := "medium" |};
    {| td_task := "Find cars under $8,000 with images sorted by lowest price.";
       td_params := [("max_price", str "8000"); ("hasPic", str "1"); ("sort", str "priceasc")];
       td_difficulty := "medium" |};
    {| td_task := "Search for Ford vehicles from dealers with photos.";
       td_params := [("auto_make_model", str "ford"); ("purveyor", str "dealer"); ("hasPic", str "1")];
       td_difficulty := "medium" |};
    {| td_task := "Find cars priced between $5,000 and $12,000.";
       td_params := [("min_price", str "5000"); ("max_price", str "12000")];
       td_difficulty := "easy" |};
    (* TRANSMISSION FILTER (3 tasks) *)
    {| td_task := "Find cars with automatic transmission under $10,000 with images.";
       td_params := [("auto_transmission", str "1"); ("max_price", str "10000"); ("hasPic", str "1")];
       td_difficulty := "hard" |};
    {| td_task := "Search for manual transmission cars priced between $5,000 and $20,000.";
       td_params := [("auto_transmission", str "2"); ("min_price", str "5000"); ("max_price", str "20000")];
       td_difficulty := "hard" |};
    {| td_task := "Browse manual transmission sports cars with images.";
       td_params := [("auto_transmission", str "2"); ("auto_bodytype", str "3"); ("hasPic", str "1")];
       td_difficulty := "hard" |};
    (* FUEL TYPE FILTER (4 tasks) *)
    {| td_task := "Find electric vehicles with images.";
       td_params := [("auto_fuel_type", str "4"); ("hasPic", str "1")];
       td_difficulty := "medium" |};
    {| td_task := "Browse hybrid cars under $25,000 sold by owners.";
       td_params := [("auto_fuel_type", str "3"); ("max_price", str "25000"); ("purveyor", str "owner")];
       td_difficulty := "hard" |};
    {| td_task := "Find diesel trucks with images priced under $35,000.";
       td_params := [("auto_fuel_type", str "2"); ("auto_bodytype", str "9"); ("hasPic", str "1"); ("max_price", str "35000")];
       td_difficulty := "hard" |};
    {| td_task := "Search for gasoline SUVs under $20,000.";
       td_params := [("auto_fuel_type", str "1"); ("auto_bodytype", str "10"); ("max_price", str "20000")];
       td_difficulty := "hard" |};
    (* BODY TYPE FILTER (4 tasks) *)
    {| td_task := "Find SUVs with images under $18,000.";
       td_params := [("auto_bodytype", str "10"); ("hasPic", str "1"); ("max_price", str "18000")];
       td_difficulty := "medium" |};
    {| td_task := "Browse pickup trucks sold by owners with photos.";
       td_params := [("auto_bodytype", str "7"); ("purveyor", str "owner"); ("hasPic", str "1")];
       td_difficulty := "medium" |};
    {| td_task := "Find sedans with automatic transmission under $12,000.";
       td_params := [("auto_bodytype", str "8"); ("auto_transmission", str "1"); ("max_price", str "12000")];
       td_difficulty := "hard" |};
    {| td_task := "Search for convertibles priced between $15,000 and $40,000 with images.";
       td_params := [("auto_bodytype", str "2"); ("min_price", str "15000"); ("max_price", str "40000"); ("hasPic", str "1")];
       td_difficulty := "hard" |};
    (* DRIVETRAIN FILTER (3 tasks) *)
    {| td_task := "Find 4WD vehicles with images under $25,000.";
       td_params := [("auto_drivetrain", str "3"); ("hasPic", str "1"); ("max_price", str "25000")];
       td_difficulty := "hard" |};
    {| td_task := "Browse rear-wheel drive cars sold by owners.";
       td_params := [("auto_drivetrain", str "2"); ("purveyor", str "owner")];
       td_difficulty := "medium" |};
    {| td_task := "Find front-wheel drive sedans under $15,000 with images.";
       td_params := [("auto_drivetrain", str "1"); ("auto_bodytype", str "8"); ("max_price", str "15000"); ("hasPic", str "1")];
       td_difficulty := "hard" |};
    (* TITLE STATUS FILTER (2 tasks) *)
    {| td_task := "Find cars with clean title under $10,000 with images.";
       td_params := [("srchType", str "T"); ("max_price", str "10000"); ("hasPic", str "1")];
       td_difficulty := "hard" |};
    {| td_task := "Browse salvage title vehicles under $5,000.";
       td_params := [("auto_title_status", str "2"); ("max_price", str "5000")];
       td_difficulty := "medium" |};
    (* YEAR FILTER (3 tasks) *)
    {| td_task := "Find cars from 2020 or newer with images.";
       td_params := [("min_auto_year", str "2020"); ("hasPic", str "1")];
       td_difficulty := "medium" |};
    {| td_task := "Browse classic cars from 1985 or older with photos.";
       td_params := [("max_auto_year", str "1985"); ("hasPic", str "1")];
       td_difficulty := "medium" |};
    {| td_task := "Find cars between 2018 and 2022 priced under $25,000.";
       td_params := [("min_auto_year", str "2018"); ("max_auto_year", str "2022"); ("max_price", str "25000")];
       td_difficulty := "hard" |};
    (* MILEAGE FILTER (2 tasks) *)
    {| td_task := "Find low mileage cars under 50,000 miles with images.";
       td_params := [("max_auto_miles", str "50000"); ("hasPic", str "1")];
       td_difficulty := "medium" |};
    {| td_task := "Browse cars with less than 80,000 miles priced under $15,000.";
       td_params := [("max_auto_miles", str "80000"); ("max_price", str "15000")];
       td_difficulty := "hard" |};
    (* COLOR FILTER (2 tasks) *)
    {| td_task := "Find white SUVs with images under $22,000.";
       td_params := [("auto_paint", str "10"); ("auto_bodytype", str "10"); ("hasPic", str "1"); ("max_price", str "22000")];
       td_difficulty := "hard" |};
    {| td_task := "Browse black sedans sold by owners with photos.";
       td_params := [("auto_paint", str "1"); ("auto_bodytype", str "8"); ("purveyor", str "owner"); ("hasPic", str "1")];
       td_difficulty := "hard" |};
    (* COMPLEX MULTI-FILTER (2 tasks) *)
    {| td_task := "Find Toyota Camry with automatic transmission under 70,000 miles priced between $12,000 and $22,000 with images.";
       td_params := [("auto_make_model", str "toyota camry"); ("auto_transmission", str "1"); ("max_auto_miles", str "70000"); ("min_price", str "12000"); ("max_price", str "22000"); ("hasPic", str "1")];
       td_difficulty := "hard" |};
    {| td_task := "Search for Honda CR-V SUVs with 4WD from 2019 or newer under $30,000 with photos.";
       td_params := [("auto_make_model", str "honda cr-v"); ("auto_bodytype", str "10"); ("auto_drivetrain", str "3"); ("min_auto_year", str "2019"); ("max_price", str "30000"); ("hasPic", str "1")];
       td_difficulty := "hard" |}
  ].

Definition motorcycle_tasks : list task_data :=
  [
    (* BRAND SEARCHES (6 tasks) *)
    {| td_task := "Find Harley-Davidson motorcycles with images priced under $15,000.";
       td_params := [("auto_make_model", str "harley"); ("hasPic", str "1"); ("max_price", str "15000")];
       td_difficulty := "hard" |};
    {| td_task := "Browse Honda motorcycles sold by owners.";
       td_params := [("auto_make_model", str "honda"); ("purveyor", str "owner")];
       td_difficulty := "medium" |};
    {| td_task := "Find Yamaha motorcycles priced between $4,000 and $10,000.";
       td_params := [("auto_make_model", str "yamaha"); ("min_price", str "4000"); ("max_price", str "10000")];
       td_difficulty := "hard" |};
    {| td_task := "Search for Kawasaki Ninja motorcycles with images.";
       td_params := [("auto_make_model", str "kawasaki ninja"); ("hasPic", str "1")];
       td_difficulty := "medium" |};
    {| td_task := "Browse BMW motorcycles under $18,000 with photos.";
       td_params := [("auto_make_model", str "bmw"); ("max_price", str "18000"); ("hasPic", str "1")];
       td_difficulty := "hard" |};
    {| td_task := "Find Ducati motorcycles sold by owners with images.";
       td_params := [("auto_make_model", str "ducati"); ("purveyor", str "owner"); ("hasPic", str "1")];
       td_difficulty := "hard" |};
    (* YEAR FILTER (3 tasks) *)
    {| td_task := "Find motorcycles from 2020 or newer with images.";
       td_params := [("min_auto_year", str "2020"); ("hasPic", str "1")];
       td_difficulty := "medium" |};
    {| td_task := "Browse vintage motorcycles from 1990 or older with photos.";
       td_params := [("max_auto_year", str "1990"); ("hasPic", str "1")];
       td_difficulty := "medium" |};
    {| td_task := "Find motorcycles between 2017 and 2022 priced under $12,000.";
       td_params := [("min_auto_year", str "2017"); ("max_auto_year", str "2022"); ("max_price", str "12000")];
       td_difficulty := "hard" |};
    (* MILEAGE FILTER (2 tasks) *)
    {| td_task := "Find low mileage motorcycles under 10,000 miles with images.";
       td_params := [("max_auto_miles", str "10000"); ("hasPic", str "1")];
       td_difficulty := "medium" |};
    {| td_task := "Browse motorcycles with less than 25,000 miles priced under $8,000.";
       td_params := [("max_auto_miles", str "25000"); ("max_price", str "8000")];
       td_difficulty := "hard" |};
    (* CONDITION FILTER (3 tasks) *)
    {| td_task := "Find new condition motorcycles with images.";
       td_params := [("condition", str "10"); ("hasPic", str "1")];
       td_difficulty := "medium" |};
    {| td_task := "Browse motorcycles in excellent condition under $10,000.";
       td_params := [("condition", str "30"); ("max_price", str "10000")];
       td_difficulty := "hard" |};
    {| td_task := "Find like-new motorcycles sold by owners.";
       td_params := [("condition", str "20"); ("purveyor", str "owner")];
       td_difficulty := "medium" |};
    (* TYPE SEARCHES (5 tasks) *)
    {| td_task := "Find sport bikes under $9,000 with images.";
       td_params := [("query", str "sport bike"); ("hasPic", str "1"); ("max_price", str "9000")];
       td_difficulty := "hard" |};
    {| td_task := "Browse cruiser motorcycles sold by owners with photos.";
       td_params := [("query", str "cruiser"); ("purveyor", str "owner"); ("hasPic", str "1")];
       td_difficulty := "hard" |};
    {| td_task := "Search for touring motorcycles priced between $8,000 and $20,000.";
       td_params := [("query", str "touring"); ("min_price", str "8000"); ("max_price", str "20000")];
       td_difficulty := "hard" |};
    {| td_task := "Find dirt bikes under $6,000 with images.";
       td_params := [("query", str "dirt bike"); ("hasPic", str "1"); ("max_price", str "6000")];
       td_difficulty := "hard" |};
    {| td_task := "Browse adventure motorcycles with photos.";
       td_params := [("query", str "adventure"); ("hasPic", str "1")];
       td_difficulty := "medium" |};
    (* SORTING (2 tasks) *)
    {| td_task := "Find motorcycles under $5,000 sorted by lowest price with images.";
       td_params := [("max_price", str "5000"); ("sort", str "priceasc"); ("hasPic", str "1")];
       td_difficulty := "hard" |};
    {| td_task := "Browse Harley-Davidson motorcycles sorted by newest listings.";
       td_params := [("auto_make_model", str "harley"); ("sort", str "date")];
       td_difficulty := "medium" |};
    (* COMPLEX COMBINATIONS (4 tasks) *)
    {| td_task := "Find Harley-Davidson touring motorcycles from 2018 or newer under $22,000 with images.";
       td_params := [("auto_make_model", str "harley"); ("query", str "touring"); ("min_auto_year", str "2018"); ("max_price", str "22000"); ("hasPic", str "1")];
       td_difficulty := "hard" |};
    {| td_task := "Browse Honda sport bikes with less than 15,000 miles from owners.";
       td_params := [("auto_make_model", str "honda"); ("query", str "sport"); ("max_auto_miles", str "15000"); ("purveyor", str "owner")];
       td_difficulty := "hard" |};
    {| td_task := "Find Suzuki motorcycles in excellent condition priced between $3,000 and $8,000.";
       td_params := [("auto_make_model", str "suzuki"); ("condition", str "30"); ("min_price", str "3000"); ("max_price", str "8000")];
       td_difficulty := "hard" |};
    {| td_task := "Search for KTM dirt bikes under $7,000 with photos from owners.";
       td_params := [("auto_make_model", str "ktm"); ("query", str "dirt"); ("max_price", str "7000"); ("hasPic", str "1"); ("purveyor", str "owner")];
       td_difficulty := "hard" |}
  ].

Definition rv_tasks : list task_data :=
  [
    (* RV TYPE SEARCHES (8 tasks) *)
    {| td_task := "Find Class A motorhomes with images priced under $60,000.";
       td_params := [("query", str "class a motorhome"); ("hasPic", str "1"); ("max_price", str "60000")];
       td_difficulty := "hard" |};
    {| td_task := "Browse Class B camper vans sold by owners.";
       td_params := [("query", str "class b"); ("purveyor", str "owner")];
       td_difficulty := "medium" |};
    {| td_task := "Search for Class C motorhomes priced between $35,000 and $75,000.";
       td_params := [("query", str "class c motorhome"); ("min_price", str "35000"); ("max_price", str "75000")];
       td_difficulty := "hard" |};
    {| td_task := "Find travel trailers under $18,000 with images.";
       td_params := [("query", str "travel trailer"); ("hasPic", str "1"); ("max_price", str "18000")];
       td_difficulty := "hard" |};
    {| td_task := "Browse fifth wheel trailers from dealers with photos.";
       td_params := [("query", str "fifth wheel"); ("purveyor", str "dealer"); ("hasPic", str "1")];
       td_difficulty := "hard" |};
    {| td_task := "Find pop-up campers under $7,000 with images.";
       td_params := [("query", str "pop up camper"); ("max_price", str "7000"); ("hasPic", str "1")];
       td_difficulty := "hard" |};
    {| td_task := "Search for toy haulers priced under $45,000 with photos.";
       td_params := [("query", str "toy hauler"); ("hasPic", str "1"); ("max_price", str "45000")];
       td_difficulty := "hard" |};
    {| td_task := "Find truck campers under $12,000 sold by owners.";
       td_params := [("query", str "truck camper"); ("max_price", str "12000"); ("purveyor", str "owner")];
       td_difficulty := "hard" |};
    (* BRAND SEARCHES (5 tasks) *)
    {| td_task := "Find Airstream trailers with images.";
       td_params := [("query", str "airstream"); ("hasPic", str "1")];
       td_difficulty := "medium" |};
    {| td_task := "Browse Winnebago motorhomes under $70,000 with photos.";
       td_params := [("query", str "winnebago"); ("max_price", str "70000"); ("hasPic", str "1")];
       td_difficulty := "hard" |};
    {| td_task := "Search for Jayco RVs sold by owners.";
       td_params := [("query", str "jayco"); ("purveyor", str "owner")];
       td_difficulty := "medium" |};
    {| td_task := "Find Forest River trailers priced between $12,000 and $30,000.";
       td_params := [("query", str "forest river"); ("min_price", str "12000"); ("max_price", str "30000")];
       td_difficulty := "hard" |};
    {| td_task := "Browse Keystone RVs under $28,000 with images.";
       td_params := [("query", str "keystone"); ("max_price", str "28000"); ("hasPic", str "1")];
       td_difficulty := "hard" |};
    (* CONDITION FILTER (3 tasks) *)
    {| td_task := "Find new condition RVs with images.";
       td_params := [("condition", str "10"); ("hasPic", str "1")];
       td_difficulty := "medium" |};
    {| td_task := "Browse travel trailers in excellent condition under $25,000.";
       td_params := [("query", str "travel trailer"); ("condition", str "30"); ("max_price", str "25000")];
       td_difficulty := "hard" |};
    {| td_task := "Find motorhomes in like-new condition from owners.";
       td_params := [("query", str "motorhome"); ("condition", str "20"); ("purveyor", str "owner")];
       td_difficulty := "hard" |};
    (* SORTING (2 tasks) *)
    {| td_task := "Find RVs under $15,000 sorted by lowest price with images.";
       td_params := [("max_price", str "15000"); ("sort", str "priceasc"); ("hasPic", str "1")];
       td_difficulty := "hard" |};
    {| td_task := "Browse travel trailers sorted by newest listings.";
       td_params := [("query", str "travel trailer"); ("sort", str "date")];
       td_difficulty := "medium" |};
    (* COMPLEX COMBINATIONS (5 tasks) *)
    {| td_task := "Find Airstream travel trailers in excellent condition under $90,000 with images.";
       td_params := [("query", str "airstream"); ("condition", str "30"); ("max_price", str "90000"); ("hasPic", str "1")];
       td_difficulty := "hard" |};
    {| td_task := "Browse diesel motorhomes priced between $40,000 and $120,000.";
       td_params := [("query", str "diesel motorhome"); ("min_price", str "40000"); ("max_price", str "120000")];
       td_difficulty := "hard" |};
    {| td_task := "Find teardrop trailers under $15,000 sold by owners with photos.";
       td_params := [("query", str "teardrop"); ("max_price", str "15000"); ("purveyor", str "owner"); ("hasPic", str "1")];
       td_difficulty := "hard" |};
    {| td_task := "Search for van conversions under $50,000 with images from owners.";
       td_params := [("query", str "van conversion"); ("max_price", str "50000"); ("hasPic", str "1"); ("purveyor", str "owner")];
       td_difficulty := "hard" |};
    {| td_task := "Find hybrid travel trailers under $35,000 with photos.";
       td_params := [("query", str "hybrid trailer"); ("max_price", str "35000"); ("hasPic", str "1")];
       td_difficulty := "hard" |}
  ].

Definition boat_tasks : list task_data :=
  [
    (* BOAT TYPE SEARCHES (8 tasks) *)
    {| td_task := "Find fishing boats with images priced under $18,000.";
       td_params := [("query", str "fishing boat"); ("hasPic", str "1"); ("max_price", str "18000")];
       td_difficulty := "hard" |};
    {| td_task := "Browse sailboats sold by owners with photos.";
       td_params := [("query", str "sailboat"); ("purveyor", str "owner"); ("hasPic", str "1")];
       td_difficulty := "hard" |};
    {| td_task := "Search for pontoon boats priced between $12,000 and $35,000.";
       td_params := [("query", str "pontoon"); ("min_price", str "12000"); ("max_price", str "35000")];
       td_difficulty := "hard" |};
    {| td_task := "Find bass boats under $22,000 with images.";
       td_params := [("query", str "bass boat"); ("hasPic", str "1"); ("max_price", str "22000")];
       td_difficulty := "hard" |};
    {| td_task := "Browse center console boats from dealers.";
       td_params := [("query", str "center console"); ("purveyor", str "dealer")];
       td_difficulty := "medium" |};
    {| td_task := "Find ski boats priced under $28,000 with photos.";
       td_params := [("query", str "ski boat"); ("hasPic", str "1"); ("max_price", str "28000")];
       td_difficulty := "hard" |};
    {| td_task := "Search for bowrider boats priced between $15,000 and $30,000.";
       td_params := [("query", str "bowrider"); ("min_price", str "15000"); ("max_price", str "30000")];
       td_difficulty := "hard" |};
    {| td_task := "Find cabin cruiser boats with images.";
       td_params := [("query", str "cabin cruiser"); ("hasPic", str "1")];
       td_difficulty := "medium" |};
    (* SMALL WATERCRAFT (4 tasks) *)
    {| td_task := "Find kayaks with photos sorted by lowest price.";
       td_params := [("query", str "kayak"); ("hasPic", str "1"); ("sort", str "priceasc")];
       td_difficulty := "medium" |};
    {| td_task := "Browse canoes under $800 sold by owners.";
       td_params := [("query", str "canoe"); ("max_price", str "800"); ("purveyor", str "owner")];
       td_difficulty := "hard" |};
    {| td_task := "Find jet skis under $9,000 with images.";
       td_params := [("query", str "jet ski"); ("hasPic", str "1"); ("max_price", str "9000")];
       td_difficulty := "hard" |};
    {| td_task := "Search for paddleboards with photos from owners.";
       td_params := [("query", str "paddleboard"); ("hasPic", str "1"); ("purveyor", str "owner")];
       td_difficulty := "medium" |};
    (* BRAND SEARCHES (3 tasks) *)
    {| td_task := "Find Boston Whaler boats with images under $40,000.";
       td_params := [("query", str "boston whaler"); ("hasPic", str "1"); ("max_price", str "40000")];
       td_difficulty := "hard" |};
    {| td_task := "Browse Sea Ray boats priced between $25,000 and $55,000.";
       td_params := [("query", str "sea ray"); ("min_price", str "25000"); ("max_price", str "55000")];
       td_difficulty := "hard" |};
    {| td_task := "Find Bayliner boats under $16,000 with photos.";
       td_params := [("query", str "bayliner"); ("max_price", str "16000"); ("hasPic", str "1")];
       td_difficulty := "hard" |};
    (* CONDITION FILTER (2 tasks) *)
    {| td_task := "Find boats in excellent condition with images.";
       td_params := [("condition", str "30"); ("hasPic", str "1")];
       td_difficulty := "medium" |};
    {| td_task := "Browse like-new fishing boats under $30,000.";
       td_params := [("query", str "fishing boat"); ("condition", str "20"); ("max_price", str "30000")];
       td_difficulty := "hard" |};
    (* SORTING (2 tasks) *)
    {| td_task := "Find boats under $10,000 sorted by lowest price with images.";
       td_params := [("max_price", str "10000"); ("sort", str "priceasc"); ("hasPic", str "1")];
       td_difficulty := "hard" |};
    {| td_task := "Browse pontoon boats sorted by newest listings.";
       td_params := [("query", str "pontoon"); ("sort", str "date")];
       td_difficulty := "medium" |};
    (* COMPLEX COMBINATIONS (3 tasks) *)
    {| td_task := "Find aluminum fishing boats under $14,000 with images from owners.";
       td_params := [("query", str "aluminum fishing boat"); ("hasPic", str "1"); ("max_price", str "14000"); ("purveyor", str "owner")];
       td_difficulty := "hard" |};
    {| td_task := "Browse Yamaha jet skis under $12,000 sold by owners with photos.";
       td_params := [("query", str "yamaha jet ski"); ("max_price", str "12000"); ("purveyor", str "owner"); ("hasPic", str "1")];
       td_difficulty := "hard" |};
    {| td_task := "Find boat trailers under $2,500 with images from owners.";
       td_params := [("query", str "boat trailer"); ("max_price", str "2500"); ("hasPic", str "1"); ("purveyor", str "owner")];
       td_difficulty := "hard" |}
  ].

(* ===================================================================== *)
(** ** Task assembly, one generator per category                          *)
(* ===================================================================== *)

(** [enumerate(l, start)]. *)
Fixpoint enumerate_from {A : Type} (start : nat) (l : list A) : list (nat * A) :=
  match l with
  | [] => []
  | x :: l' => (start, x) :: enumerate_from (S start) l'
  end.

(** [enumerate(l)]. *)
Definition enumerate {A : Type} (l : list A) : list (nat * A) :=
  enumerate_from 0 l.

Definition generate_cars_trucks_tasks (region : string) : result (list TaskConfig) :=
  region_config ← REGIONS_getitem region;
  let base_url := url_prefix region_config in
  mret (fold_left
          (fun tasks (it : nat * task_data) =>
             let i := it.1 in
             let task_data := it.2 in
             let gt_url := build_url base_url "cta" (td_params task_data) in
             tasks ++ [ {| task_id := "navi_bench/craigslist/cars_trucks/" +:+ Py.str_of_nat i;
                           task := td_task task_data;
                           url := base_url +:+ "/search/cta";
                           gt_urls := [[gt_url]];
                           location := region_location region_config;
                           timezone := region_timezone region_config;
                           difficulty := td_difficulty task_data;
                           l2_category := "cars_trucks" |} ])
          (enumerate car_tasks) []).

Definition generate_motorcycles_tasks (region : string) : result (list TaskConfig) :=
  region_config ← REGIONS_getitem region;
  let base_url := url_prefix region_config in
  mret (fold_left
          (fun tasks (it : nat * task_data) =>
             let i := it.1 in
             let task_data := it.2 in
             let gt_url := build_url base_url "mca" (td_params task_data) in
             tasks ++ [ {| task_id := "navi_bench/craigslist/motorcycles/" +:+ Py.str_of_nat i;
                           task := td_task task_data;
                           url := base_url +:+ "/search/mca";
                           gt_urls := [[gt_url]];
                           location := region_location region_config;
                           timezone := region_timezone region_config;
                           difficulty := td_difficulty task_data;
                           l2_category := "motorcycles" |} ])
          (enumerate motorcycle_tasks) []).

Definition generate_rvs_camp_tasks (region : string) : result (list TaskConfig) :=
  region_config ← REGIONS_getitem region;
  let base_url := url_prefix region_config in
  mret (fold_left
          (fun tasks (it : nat * task_data) =>
             let i := it.1 in
             let task_data := it.2 in
             let gt_url := build_url base_url "rva" (td_params task_data) in
             tasks ++ [ {| task_id := "navi_bench/craigslist/rvs_camp/" +:+ Py.str_of_nat i;
                           task := td_task task_data;
                           url := base_url +:+ "/search/rva";
                           gt_urls := [[gt_url]];
                           location := region_location region_config;
                           timezone := region_timezone region_config;
                           difficulty := td_difficulty task_data;
                           l2_category := "rvs_camp" |} ])
          (enumerate rv_tasks) []).

Definition generate_boats_tasks (region : string) : result (list TaskConfig) :=
  region_config ← REGIONS_getitem region;
  let base_url := url_prefix region_config in
  mret (fold_left
          (fun tasks (it : nat * task_data) =>
             let i := it.1 in
             let task_data := it.2 in
             let gt_url := build_url base_url "boa" (td_params task_data) in
             tasks ++ [ {| task_id := "navi_bench/craigslist/boats/" +:+ Py.str_of_nat i;
                           task := td_task task_data;
                           url := base_url +:+ "/search/boa";
                           gt_urls := [[gt_url]];
                           location := region_location region_config;
                           timezone := region_timezone region_config;
                           difficulty := td_difficulty task_data;
                           l2_category := "boats" |} ])
          (enumerate boat_tasks) []).

(* ===================================================================== *)
(** ** CSV export                                                         *)
(* ===================================================================== *)

(** The JSON values that [task_to_csv_row] serialises. *)
#[warnings="-register-all"]
Inductive json : Type :=
  | JStr (s : string)
  | JList (l : list json)
  | JDict (items : list (string * json)).

Module Json.

Definition u00 (n : N) : string :=
  String Py.backslash
    (String "u" (String "0" (String "0"
      (String (Py.hex_lower (n / 16)) (String (Py.hex_lower (n mod 16)) EmptyString))))).

(** [\uxxxx], four hexadecimal digits in lower case. *)
Definition u4 (n : N) : string :=
  String Py.backslash
    (String "u"
      (String (Py.hex_lower ((n / 4096) mod 16))
        (String (Py.hex_lower ((n / 256) mod 16))
          (String (Py.hex_lower ((n / 16) mod 16))
            (String (Py.hex_lower (n mod 16)) EmptyString))))).

(** A character above the basic plane, as the pair of its surrogates. *)
Definition surrogates (n : N) : string :=
  let v := (n - 65536)%N in
  u4 (N.lor 55296 (N.land (N.shiftr v 10) 1023)) +:+ u4 (N.lor 56320 (N.land v 1023)).

(** The six bits that a continuation byte of UTF-8 carries. *)
Definition cont (c : ascii) : N := N.land (N_of_ascii c) 63.

(** One character below 128 of a JSON string under [ensure_ascii=True]:
    the quote and the backslash are escaped, the five short escapes are
    used, and whatever else lies outside [' '..'~'] is written as
    [\u00xx]. *)
Definition escape_char (c : ascii) : string :=
  let n := N_of_ascii c in
  if Ascii.eqb c Py.dquote || Ascii.eqb c Py.backslash then String Py.backslash (String c EmptyString)
  else if (n =? 8)%N then String Py.backslash "b"
  else if (n =? 12)%N then String Py.backslash "f"
  else if (n =? 10)%N then String Py.backslash "n"
  else if (n =? 13)%N then String Py.backslash "r"
  else if (n =? 9)%N then String Py.backslash "t"
  else if (n <? 32)%N || (126 <? n)%N then u00 n
  else String c EmptyString.

(** The body of a JSON string under [ensure_ascii=True]. A character
    from 128 up is written by its code point, which is read off the two,
    three or four bytes of its UTF-8 form: [\uxxxx], or two of them for a
    character above the basic plane. A byte sequence that is not UTF-8
    stands for no Python string; a lead byte whose sequence is cut short
    is then written by its own value. *)
Fixpoint escape (s : string) : string :=
  match s with
  | EmptyString => EmptyString
  | String c rest =>
      let n := N_of_ascii c in
      if (n <? 128)%N then escape_char c +:+ escape rest
      else
        match rest with
        | EmptyString => u4 n
        | String c1 rest1 =>
            if (n <? 224)%N then
              u4 (N.lor (N.shiftl (N.land n 31) 6) (cont c1)) +:+ escape rest1
            else
              match rest1 with
              | EmptyString => u4 n +:+ escape rest
              | String c2 rest2 =>
                  if (n <? 240)%N then
                    u4 (N.lor (N.shiftl (N.land n 15) 12)
                              (N.lor (N.shiftl (cont c1) 6) (cont c2)))
                      +:+ escape rest2
                  else
                    match rest2 with
                    | EmptyString => u4 n +:+ escape rest
                    | String c3 rest3 =>
                        surrogates
                          (N.lor (N.shiftl (N.land n 7) 18)
                                 (N.lor (N.shiftl (cont c1) 12)
                                        (N.lor (N.shiftl (cont c2) 6) (cont c3))))
                          +:+ escape rest3
                    end
              end
        end
  end.

Definition encode_str (s : string) : string :=
  String Py.dquote (escape s +:+ String Py.dquote EmptyString).

(** [json.dumps(j)] with the default separators [", "] and [": "]. *)
Fixpoint dumps (j : json) : string :=
  match j with
  | JStr s => encode_str s
  | JList l => "[" +:+ Py.join ", " (List.map dumps l) +:+ "]"
  | JDict items =>
      "{" +:+ Py.join ", "
                (List.map (fun kv : string * json =>
                             let (k, v) := kv in encode_str k +:+ ": " +:+ dumps v)
                          items)
          +:+ "}"
  end.

End Json.

(** A CSV row dictionary: column name to cell, in insertion order. *)
Definition row_t : Type := list (string * scalar).

Definition task_to_csv_row (t : TaskConfig) : row_t :=
  let task_generation_config :=
    JDict [ ("_target_", JStr "navi_bench.craigslist.craigslist_url_match.generate_task_config");
            ("url", JStr (url t));
            ("task", JStr (task t));
            ("location", JStr (location t));
            ("timezone", JStr (timezone t));
            ("gt_urls", JList (List.map (fun alt => JList (List.map JStr alt)) (gt_urls t))) ] in
  [ ("task_id", SStr (task_id t));
    ("task_generation_config_json", SStr (Json.dumps task_generation_config));
    ("env", SStr "real");
    ("domain", SStr "craigslist");
    ("l1_category", SStr "marketplace");
    ("l2_category", SStr (l2_category t));
    ("suggested_difficulty", SStr (difficulty t));
    ("suggested_hint", SStr "null");
    ("suggested_max_steps", SInt 0);
    ("suggested_split", SStr "validation");
    ("metadata_json", SStr "null") ].

Definition fieldnames : list string :=
  [ "task_id"; "task_generation_config_json"; "env"; "domain";
    "l1_category"; "l2_category"; "suggested_difficulty";
    "suggested_hint"; "suggested_max_steps"; "suggested_split"; "metadata_json" ].

(** [rowdict.get(key)]. *)
Fixpoint dict_get {V : Type} (d : list (string * V)) (key : string) : option V :=
  match d with
  | [] => None
  | (k, v) :: d' => if String.eqb k key then Some v else dict_get d' key
  end.

Module Csv.

Definition CR : ascii := ascii_of_nat 13.
Definition LF : ascii := ascii_of_nat 10.

(** The [excel] dialect: delimiter [,], quote character, [\r\n] line
    terminator, minimal quoting with doubled quotes. *)
Definition delimiter : ascii := ","%char.
Definition lineterminator : string := String CR (String LF EmptyString).

Definition needs_quote (c : ascii) : bool :=
  Ascii.eqb c delimiter || Ascii.eqb c Py.dquote || Py.char_in c lineterminator.

Fixpoint double_quotes (s : string) : string :=
  match s with
  | EmptyString => EmptyString
  | String c s' =>
      if Ascii.eqb c Py.dquote then String c (String c (double_quotes s'))
      else String c (double_quotes s')
  end.

Definition field (s : string) : string :=
  if existsb needs_quote (list_ascii_of_string s)
  then String Py.dquote (double_quotes s +:+ String Py.dquote EmptyString)
  else s.

(** One record of two or more fields, as [writer.writerow] writes it;
    a cell that is not a string is written through [str]. *)
Definition record (cells : list scalar) : string :=
  Py.join "," (List.map (fun x => field (str_scalar x)) cells) +:+ lineterminator.

(** [DictWriter._dict_to_list] with [extrasaction='raise'] and
    [restval='']. The message names the fields that are not in
    [fieldnames]; Python takes them from a set, so with two or more of them
    their order in the message is not fixed: here it is the row's. *)
Definition dict_to_list (fieldnames : list string) (rowdict : list (string * scalar))
  : result (list scalar) :=
  let wrong_fields := filter (fun k => k ∉ fieldnames) (rowdict.*1) in
  match wrong_fields with
  | [] => Ok (List.map (fun key => default (SStr EmptyString) (dict_get rowdict key)) fieldnames)
  | _ :: _ =>
      Raise (ValueError ("dict contains fields not in fieldnames: "
                           +:+ Py.join ", " (List.map Py.repr_str wrong_fields)))
  end.

End Csv.

(* ===================================================================== *)
(** ** The file system and the entry point                                *)
(* ===================================================================== *)

(** The files: the name of each file to its content. A name is what the
    operating system makes of a path, so one file has one name however its
    path is spelled. *)
Abbreviation files := (gmap string string).

(** What [open(path, "w")] comes to: the file that the path stands for, or
    the refusal of the operating system (a directory that does not exist,
    a path that is a directory or is empty, a permission that is lacking),
    which Python raises as an [OSError]. *)
Inductive opened : Type :=
  | Opened (file : string)
  | Refused (msg : string).

(** The operating system as [open] sees it: what each path comes to. *)
Definition opener : Type := string -> opened.

(** Computations that may raise and that act on the files; what was
    written before an exception stays written. *)
Definition io (A : Type) : Type := files -> result A * files.

#[export] Instance io_ret : MRet io := fun A a fs => (Ok a, fs).

#[export] Instance io_bind : MBind io := fun A B f m fs =>
  match m fs with
  | (Ok a, fs') => f a fs'
  | (Raise e, fs') => (Raise e, fs')
  end.

Definition lift {A : Type} (r : result A) : io A := fun fs => (r, fs).

(** [assert cond, msg]. *)
Definition py_assert (cond : bool) (msg : string) : io unit :=
  lift (if cond then Ok tt else Raise (AssertionError msg)).

(** [open(path, "w", newline="")]: the file is created or truncated and
    handed back, or the refusal is raised and no file is touched. *)
Definition open_w (os : opener) (path : string) : io string :=
  fun fs =>
    match os path with
    | Opened f => (Ok f, <[f := EmptyString]> fs)
    | Refused msg => (Raise (OSError msg), fs)
    end.

(** [f.write(data)] on the open file [f]: the data go to its end. A write
    to an open file is taken to succeed; a disk that fills up is outside
    the model. *)
Definition write (f data : string) : io unit :=
  fun fs => (Ok tt, alter (fun old => old +:+ data) f fs).

Fixpoint for_each {A : Type} (l : list A) (body : A -> io unit) : io unit :=
  match l with
  | [] => mret tt
  | x :: l' => _ ← body x; for_each l' body
  end.

Definition writeheader (f : string) : io unit :=
  write f (Csv.record (List.map SStr fieldnames)).

Definition writerow (f : string) (rowdict : row_t) : io unit :=
  cells ← lift (Csv.dict_to_list fieldnames rowdict);
  write f (Csv.record cells).

(** The command line: the values given to [--output] and [--region]. A
    command line with anything else on it ([--help], an option that does
    not exist) ends in the parser and is not described here. *)
Record cli : Type := {
  cli_output : option string;
  cli_region : option string
}.

Record Namespace : Type := {
  output : string;
  region : string
}.

(** [parser.parse_args()]: defaults, and [choices=list(REGIONS.keys())]
    for the region; a value outside the choices ends the program with
    exit status 2. *)
Definition parse_args (argv : cli) : result Namespace :=
  let region := default "sfbay" (cli_region argv) in
  if bool_decide (region ∈ REGIONS_items.*1)
  then Ok {| output := default "dataset_100.csv" (cli_output argv); region := region |}
  else Raise (SystemExit 2).

Definition generator : Type := string -> result (list TaskConfig).

Definition generators : list (string * generator) :=
  [ ("cars_trucks", generate_cars_trucks_tasks);
    ("motorcycles", generate_motorcycles_tasks);
    ("rvs_camp", generate_rvs_camp_tasks);
    ("boats", generate_boats_tasks) ].

(** [for category_name, generator_func in generators: all_tasks.extend(...)]. *)
Fixpoint run_generators (gens : list (string * generator)) (region : string)
    (all_tasks : list TaskConfig) : result (list TaskConfig) :=
  match gens with
  | [] => Ok all_tasks
  | (_, generator_func) :: gens' =>
      tasks ← generator_func region;
      run_generators gens' region (all_tasks ++ tasks)
  end.

(** The body of [main] below the definition of its local [generators],
    under the operating system [os]. *)
Definition main_body (os : opener) (gens : list (string * generator)) (argv : cli)
    : io unit :=
  args ← lift (parse_args argv);
  _ ← lift (REGIONS_getitem (region args));
  all_tasks ← lift (run_generators gens (region args) []);
  _ ← py_assert (length all_tasks =? 100)%nat
        ("Expected 100 tasks, got " +:+ Py.str_of_nat (length all_tasks));
  f ← open_w os (output args);
  _ ← writeheader f;
  for_each all_tasks (fun t => writerow f (task_to_csv_row t)).

Definition main (os : opener) (argv : cli) : io unit := main_body os generators argv.

(* ===================================================================== *)
(** ** Descriptions used in the statements                                *)
(* ===================================================================== *)

(** What one turn of the loop adds, whatever was collected before it. *)
Definition pairs_of (kv : string * value) : list string := encode_step [] kv.

(** Written from the specification's encoding rules, not from the source:
    a list-valued parameter gives one verbatim pair per element, in list
    order; a scalar gives one pair, percent-encoded under the two free-text
    names and verbatim otherwise. *)
Definition spec_pairs (kv : string * value) : list string :=
  let '(key, value) := kv in
  match value with
  | VList l => List.map (fun v => key +:+ "=" +:+ str_scalar v) l
  | VScalar x =>
      [key +:+ "=" +:+ (if is_quoted_key key then Py.quote (str_scalar x) else str_scalar x)]
  end.

(** Written from the specification: the URL for a mapping that is not
    empty, the pairs joined with [&] in the mapping's order behind a [?]. *)
Definition spec_build_url (base_url category_code : string) (params : params_t) : string :=
  base_url +:+ "/search/" +:+ category_code +:+ "?"
    +:+ Py.join "&" (concat (List.map spec_pairs params)) +:+ fragment.

(** No list-valued parameter carries one of the two free-text names. *)
Definition lists_unquoted (params : params_t) : Prop :=
  ∀ key l, (key, VList l) ∈ params → is_quoted_key key = false.

(** The record a generator builds at one turn of its loop. *)
Definition task_of (name code : string) (region_config : region_config)
    (it : nat * task_data) : TaskConfig :=
  {| task_id := "navi_bench/craigslist/" +:+ name +:+ "/" +:+ Py.str_of_nat it.1;
     task := td_task it.2;
     url := url_prefix region_config +:+ "/search/" +:+ code;
     gt_urls := [[build_url (url_prefix region_config) code (td_params it.2)]];
     location := region_location region_config;
     timezone := region_timezone region_config;
     difficulty := td_difficulty it.2;
     l2_category := name |}.

(** Each generator with its category name, category code and table. *)
Definition category_generators : list (string * string * list task_data * generator) :=
  [ ("cars_trucks", "cta", car_tasks, generate_cars_trucks_tasks);
    ("motorcycles", "mca", motorcycle_tasks, generate_motorcycles_tasks);
    ("rvs_camp", "rva", rv_tasks, generate_rvs_camp_tasks);
    ("boats", "boa", boat_tasks, generate_boats_tasks) ].

(** The tasks of a whole run, category after category. *)
Definition all_tasks_of (region_config : region_config) : list TaskConfig :=
  List.map (task_of "cars_trucks" "cta" region_config) (enumerate car_tasks)
  ++ List.map (task_of "motorcycles" "mca" region_config) (enumerate motorcycle_tasks)
  ++ List.map (task_of "rvs_camp" "rva" region_config) (enumerate rv_tasks)
  ++ List.map (task_of "boats" "boa" region_config) (enumerate boat_tasks).

(** How many tasks carry a given [l2_category]. *)
Definition count_category (name : string) (tasks : list TaskConfig) : nat :=
  length (List.filter (fun t => String.eqb (l2_category t) name) tasks).

(** The cells of a row in the order of [fieldnames]. *)
Definition row_cells (t : TaskConfig) : list scalar :=
  List.map snd (task_to_csv_row t).

(** The text of the CSV file for a list of tasks: the file opened empty,
    then the header, then one record per task. *)
Definition csv_text (tasks : list TaskConfig) : string :=
  fold_left (fun text t => text +:+ Csv.record (row_cells t)) tasks
            (EmptyString +:+ Csv.record (List.map SStr fieldnames)).


(** The text of the cell [task_generation_config_json] of a task's row. *)
Definition config_json (t : TaskConfig) : string :=
  match dict_get (task_to_csv_row t) "task_generation_config_json" with
  | Some cell => str_scalar cell
  | None => EmptyString
  end.

(** An operating system that opens every path, each as a file of its own
    under the path's spelling. *)
Definition plain_paths : opener := fun path => Opened path.

(** Every byte is below 128. *)
Definition is_ascii (s : string) : bool :=
  forallb (fun c => (N_of_ascii c <? 128)%N) (list_ascii_of_string s).

(** Every string of a task that [task_to_csv_row] hands to [Json.dumps]
    is ASCII. *)
Definition task_text_ascii (t : TaskConfig) : bool :=
  is_ascii (url t) && is_ascii (task t) && is_ascii (location t)
  && is_ascii (timezone t) && forallb (forallb is_ascii) (gt_urls t).

(** The five regions with their URL prefixes. *)
Definition region_prefixes : list (string * string) :=
  [ ("sfbay", "https://sfbay.craigslist.org");
    ("losangeles", "https://losangeles.craigslist.org");
    ("newyork", "https://newyork.craigslist.org");
    ("seattle", "https://seattle.craigslist.org");
    ("chicago", "https://chicago.craigslist.org") ].

(* ===================================================================== *)
(** ** The summary that main prints after the export                      *)
(* ===================================================================== *)

(** [d[key] = v] on a dict kept as its items in insertion order: a key
    that is present keeps its place, a new key goes to the end. *)
Fixpoint dict_set {V : Type} (d : list (string * V)) (key : string) (v : V)
    : list (string * V) :=
  match d with
  | [] => [(key, v)]
  | (k, w) :: d' =>
      if String.eqb k key then (k, v) :: d' else (k, w) :: dict_set d' key v
  end.

(** The loop over [all_tasks] that fills [category_counts], from [{}]. *)
Definition category_counts (all_tasks : list TaskConfig) : list (string * nat) :=
  fold_left
    (fun category_counts t =>
       dict_set category_counts (l2_category t)
                (default 0 (dict_get category_counts (l2_category t)) + 1))
    all_tasks [].

(** The loop that fills [difficulty_counts], from the three keys at 0. *)
Definition difficulty_counts (all_tasks : list TaskConfig) : list (string * nat) :=
  fold_left
    (fun difficulty_counts t =>
       dict_set difficulty_counts (difficulty t)
                (default 0 (dict_get difficulty_counts (difficulty t)) + 1))
    all_tasks [("easy", 0); ("medium", 0); ("hard", 0)].

(** [sorted(l, key=key)]: ascending on the key, and stable. Each element
    goes behind the elements already placed whose key is not greater. *)
Fixpoint insert_sorted {A : Type} (key : A -> Z) (x : A) (l : list A) : list A :=
  match l with
  | [] => [x]
  | y :: l' =>
      if (key x <? key y)%Z then x :: y :: l' else y :: insert_sorted key x l'
  end.

Definition py_sorted {A : Type} (key : A -> Z) (l : list A) : list A :=
  fold_left (fun acc x => insert_sorted key x acc) l [].

(** [sorted(category_counts.items(), key=lambda x: -x[1])], the order in
    which the category lines are printed. *)
Definition sorted_categories (all_tasks : list TaskConfig) : list (string * nat) :=
  py_sorted (fun x : string * nat => (- Z.of_nat x.2)%Z) (category_counts all_tasks).

(* ===================================================================== *)
(** ** Further descriptions used in the statements                        *)
(* ===================================================================== *)

(** The strings of a list in the order in which they first occur. *)
Fixpoint first_seen (l : list string) : list string :=
  match l with
  | [] => []
  | x :: l' => x :: List.filter (fun y => negb (String.eqb x y)) (first_seen l')
  end.

(** The value of a hexadecimal digit, in either case. *)
Definition hex_value (c : ascii) : option N :=
  let n := N_of_ascii c in
  if Py.is_digit c then Some (n - 48)%N
  else if Py.in_range 65 70 c then Some (n - 55)%N
  else if Py.in_range 97 102 c then Some (n - 87)%N
  else None.

(** [urllib.parse.unquote_to_bytes], the decoder that goes with [quote]:
    a percent sign followed by two hexadecimal digits is the byte they
    name, anything else stands for itself. The program does not call it;
    it states what [quote] preserves. *)
Fixpoint unquote_to_bytes (s : string) : string :=
  match s with
  | EmptyString => EmptyString
  | String c rest =>
      if Ascii.eqb c "%" then
        match rest with
        | String h1 (String h2 rest') =>
            match hex_value h1, hex_value h2 with
            | Some a, Some b =>
                String (ascii_of_N (16 * a + b)) (unquote_to_bytes rest')
            | _, _ => String c (unquote_to_bytes rest)
            end
        | _ => String c (unquote_to_bytes rest)
        end
      else String c (unquote_to_bytes rest)
  end.

(** Every character of [s] passes the test [p]. *)
Definition all_chars (p : ascii -> bool) (s : string) : bool :=
  forallb p (list_ascii_of_string s).

(** A character that [quote] leaves as it is. *)
Definition quote_keeps (c : ascii) : bool :=
  Py.always_safe c || Py.char_in c "/".

(** A character that may stand in the output of [quote]. *)
Definition quoted_char (c : ascii) : bool :=
  quote_keeps c || Ascii.eqb c "%".

(** A printable ASCII character, from the space to the tilde. *)
Definition printable (c : ascii) : bool := Py.in_range 32 126 c.

(** How many pairs a parameter contributes. *)
Definition pair_count (kv : string * value) : nat :=
  if is_quoted_key kv.1 then 1
  else match kv.2 with
       | VList l => length l
       | VScalar _ => 1
       end.

(** The value of a parameter is a scalar. *)
Definition is_scalar (v : value) : bool :=
  match v with
  | VScalar _ => true
  | VList _ => false
  end.

(** The ground-truth URLs of a list of tasks, flattened. *)
Definition all_gt_urls (tasks : list TaskConfig) : list string :=
  concat (concat (List.map gt_urls tasks)).

(** How many tasks carry a given [difficulty]. *)
Definition count_difficulty (name : string) (tasks : list TaskConfig) : nat :=
  length (List.filter (fun t => String.eqb (difficulty t) name) tasks).

(** A region without text, to read the tasks apart from their region. *)
Definition no_region : region_config :=
  {| url_prefix := EmptyString;
     region_location := EmptyString;
     region_timezone := EmptyString |}.

(** The fields of a task that the region does not enter. *)
Definition region_free (t : TaskConfig) : string * string * string * string :=
  (task_id t, task t, difficulty t, l2_category t).

(* ===================================================================== *)
(** ** Strings and lists                                                  *)
(* ===================================================================== *)

Section StringFacts.

Lemma append_nil_l (s : string) : EmptyString +:+ s = s.
Proof. reflexivity. Qed.

Lemma append_cons (c : ascii) (s t : string) :
  String c s +:+ t = String c (s +:+ t).
Proof. reflexivity. Qed.

Lemma append_assoc (s1 s2 s3 : string) :
  (s1 +:+ s2) +:+ s3 = s1 +:+ (s2 +:+ s3).
Proof.
  induction s1 as [|c s1 IH]; [reflexivity|].
  now rewrite !append_cons, IH.
Qed.


Lemma prefix_append (s t : string) : String.prefix s (s +:+ t) = true.
Proof.
  induction s as [|c s IH].
  - now destruct t.
  - rewrite append_cons. simpl. now destruct (ascii_dec c c).
Qed.

Lemma startswith_append (s t : string) : Py.startswith (s +:+ t) s = true.
Proof. apply prefix_append. Qed.

Lemma char_in_append (c : ascii) (s t : string) :
  Py.char_in c (s +:+ t) = Py.char_in c s || Py.char_in c t.
Proof.
  unfold Py.char_in.
  induction s as [|d s IH]; [reflexivity|].
  rewrite append_cons. simpl. now rewrite IH, orb_assoc.
Qed.

Lemma quote_cons (c : ascii) (s : string) :
  Py.quote (String c s) = Py.quote_byte c +:+ Py.quote s.
Proof. reflexivity. Qed.

Lemma quote_append (s t : string) :
  Py.quote (s +:+ t) = Py.quote s +:+ Py.quote t.
Proof.
  induction s as [|c s IH]; [reflexivity|].
  now rewrite append_cons, !quote_cons, IH, append_assoc.
Qed.

Lemma quote_byte_no_space (c : ascii) : Py.char_in " " (Py.quote_byte c) = false.
Proof.
  destruct c as [[] [] [] [] [] [] [] []]; vm_compute; reflexivity.
Qed.

Lemma quote_no_space (s : string) : Py.char_in " " (Py.quote s) = false.
Proof.
  induction s as [|c s IH]; [reflexivity|].
  now rewrite quote_cons, char_in_append, quote_byte_no_space, IH.
Qed.

Lemma fold_left_snoc {A B : Type} (f : A -> B) (l : list A) (acc : list B) :
  fold_left (fun acc x => acc ++ [f x]) l acc = acc ++ List.map f l.
Proof.
  revert acc; induction l as [|x l IH]; intros acc; simpl.
  - now rewrite app_nil_r.
  - now rewrite IH, <- app_assoc.
Qed.

End StringFacts.

(* ===================================================================== *)
(** ** build_url                                                          *)
(* ===================================================================== *)

Section BuildUrl.

Lemma is_quoted_key_true (key : string) :
  key = "query" ∨ key = "auto_make_model" → is_quoted_key key = true.
Proof. now intros [-> | ->]. Qed.

Lemma encode_step_app (acc : list string) (kv : string * value) :
  encode_step acc kv = acc ++ pairs_of kv.
Proof.
  unfold pairs_of, encode_step. destruct kv as [key [x | l]].
  - now destruct (is_quoted_key key).
  - destruct (is_quoted_key key); [reflexivity|].
    now rewrite !fold_left_snoc.
Qed.

Lemma fold_encode_step (params : params_t) (acc : list string) :
  fold_left encode_step params acc = acc ++ concat (List.map pairs_of params).
Proof.
  revert acc; induction params as [|kv params IH]; intros acc; simpl.
  - now rewrite app_nil_r.
  - now rewrite IH, encode_step_app, <- app_assoc.
Qed.

Lemma encode_params_concat (params : params_t) :
  encode_params params = concat (List.map pairs_of params).
Proof. unfold encode_params. now rewrite fold_encode_step. Qed.

Lemma encode_params_app (p1 p2 : params_t) :
  encode_params (p1 ++ p2) = encode_params p1 ++ encode_params p2.
Proof. now rewrite !encode_params_concat, List.map_app, concat_app. Qed.

Lemma encode_params_cons (kv : string * value) (params : params_t) :
  encode_params (kv :: params) = pairs_of kv ++ encode_params params.
Proof. now rewrite !encode_params_concat. Qed.

Lemma pairs_of_quoted (key : string) (v : value) :
  is_quoted_key key = true →
  pairs_of (key, v) = [key +:+ "=" +:+ Py.quote (py_str v)].
Proof. unfold pairs_of, encode_step. now intros ->. Qed.

Lemma pairs_of_spec_pairs (key : string) (v : value) :
  (∀ l, v = VList l → is_quoted_key key = false) →
  pairs_of (key, v) = spec_pairs (key, v).
Proof.
  intros Hl. unfold pairs_of, encode_step, spec_pairs.
  destruct v as [x | l].
  - now destruct (is_quoted_key key).
  - rewrite (Hl l eq_refl). now rewrite fold_left_snoc.
Qed.

Lemma build_url_nonempty (base code : string) (params : params_t) :
  params ≠ [] →
  build_url base code params
  = base +:+ "/search/" +:+ code +:+ "?" +:+ Py.join "&" (encode_params params) +:+ fragment.
Proof.
  intros Hne. unfold build_url. destruct params as [|kv params]; [done|].
  now rewrite !append_assoc.
Qed.

Lemma build_url_startswith (base code : string) (params : params_t) :
  Py.startswith (build_url base code params) base = true.
Proof.
  unfold build_url. destruct params as [|kv params];
    rewrite !append_assoc; apply startswith_append.
Qed.

End BuildUrl.

Section EncodingRules.

(** C1: for every base URL, [build_url base "cta" {}] is exactly
    [base + "/search/cta#search=2~gallery~0"]: with no parameters there is
    no query segment, and the fixed fragment is still appended. *)
Theorem build_url_no_params (base : string) :
  build_url base "cta" [] = base +:+ "/search/cta#search=2~gallery~0".
Proof.
  unfold build_url. rewrite append_assoc. reflexivity.
Qed.

Lemma quoted_key_no_space (key : string) :
  key = "query" ∨ key = "auto_make_model" → Py.char_in " " key = false.
Proof. now intros [-> | ->]. Qed.

(** C2: a parameter named [query] or [auto_make_model] contributes the
    single pair [name=quote(str(value))], wherever it stands in the
    mapping; the pair holds no literal space, and every space of the value
    is written [%20]. *)
Theorem quoted_param_is_percent_encoded
    (base code key : string) (v : value) (before after : params_t) :
  key = "query" ∨ key = "auto_make_model" →
  let pair := key +:+ "=" +:+ Py.quote (py_str v) in
  encode_params (before ++ (key, v) :: after)
    = encode_params before ++ pair :: encode_params after
  ∧ build_url base code (before ++ (key, v) :: after)
    = base +:+ "/search/" +:+ code +:+ "?"
        +:+ Py.join "&" (encode_params before ++ pair :: encode_params after)
        +:+ fragment
  ∧ Py.char_in " " pair = false
  ∧ (∀ s1 s2, py_str v = s1 +:+ " " +:+ s2 →
       Py.quote (py_str v) = Py.quote s1 +:+ "%20" +:+ Py.quote s2).
Proof.
  intros Hkey pair.
  assert (Henc : encode_params (before ++ (key, v) :: after)
                 = encode_params before ++ pair :: encode_params after).
  { rewrite encode_params_app, encode_params_cons.
    now rewrite (pairs_of_quoted key v (is_quoted_key_true key Hkey)). }
  split; [exact Henc|]. split; [|split].
  - rewrite build_url_nonempty by (now destruct before).
    now rewrite Henc.
  - unfold pair. rewrite !char_in_append.
    now rewrite (quoted_key_no_space key Hkey), quote_no_space.
  - intros s1 s2 ->. now rewrite !quote_append.
Qed.

Lemma quoted_param_is_percent_encoded_witness :
  build_url "https://sfbay.craigslist.org" "mca" [("query", str "class a motorhome")]
  = "https://sfbay.craigslist.org/search/mca?query=class%20a%20motorhome#search=2~gallery~0".
Proof.
  destruct (quoted_param_is_percent_encoded
              "https://sfbay.craigslist.org" "mca" "query"
              (str "class a motorhome") [] [] (or_introl eq_refl))
    as (_ & Hurl & _).
  exact Hurl.
Defined.

(** The same example for any base URL. *)
Lemma build_url_query_example (base : string) :
  build_url base "mca" [("query", str "class a motorhome")]
  = base +:+ "/search/mca?query=class%20a%20motorhome#search=2~gallery~0".
Proof.
  unfold build_url. rewrite !append_assoc. reflexivity.
Qed.

(** C10: under the names [query] and [auto_make_model] a list is not
    expanded: the whole list is turned into its string form, which is
    percent-encoded as one value, so the parameter gives exactly one pair. *)
Theorem quoted_list_is_one_pair
    (key : string) (l : list scalar) (acc : list string) (before after : params_t) :
  key = "query" ∨ key = "auto_make_model" →
  let pair :=
    key +:+ "=" +:+ Py.quote ("[" +:+ Py.join ", " (List.map repr_scalar l) +:+ "]") in
  encode_step acc (key, VList l) = acc ++ [pair]
  ∧ encode_params (before ++ (key, VList l) :: after)
    = encode_params before ++ pair :: encode_params after.
Proof.
  intros Hkey pair. pose proof (is_quoted_key_true key Hkey) as Hq. split.
  - now rewrite encode_step_app, (pairs_of_quoted key (VList l) Hq).
  - rewrite encode_params_app, encode_params_cons.
    now rewrite (pairs_of_quoted key (VList l) Hq).
Qed.

Lemma quoted_list_is_one_pair_witness :
  encode_step ["hasPic=1"] ("query", VList [SStr "a"; SStr "b"])
  = ["hasPic=1"; "query=%5B%27a%27%2C%20%27b%27%5D"].
Proof.
  destruct (quoted_list_is_one_pair "query" [SStr "a"; SStr "b"] ["hasPic=1"] [] []
              (or_introl eq_refl)) as (Hstep & _).
  exact Hstep.
Defined.

(** C3 as worded fails: a list under the name [query] is not expanded
    into one pair per element. *)
Lemma quoted_list_not_expanded :
  let params := [("query", VList [SStr "a"; SStr "b"])] in
  params ≠ []
  ∧ build_url "https://sfbay.craigslist.org" "cta" params
    = "https://sfbay.craigslist.org/search/cta?query=%5B%27a%27%2C%20%27b%27%5D#search=2~gallery~0"
  ∧ spec_build_url "https://sfbay.craigslist.org" "cta" params
    = "https://sfbay.craigslist.org/search/cta?query=a&query=b#search=2~gallery~0"
  ∧ build_url "https://sfbay.craigslist.org" "cta" params
    ≠ spec_build_url "https://sfbay.craigslist.org" "cta" params.
Proof.
  repeat split; [discriminate | vm_compute; discriminate].
Qed.

(** C3, amended: for a non-empty mapping in which no list stands under
    [query] or [auto_make_model], a list gives one verbatim pair per
    element in list order, a scalar gives one pair (percent-encoded under
    the two names, verbatim otherwise), and the pairs are joined with [&]
    in the mapping's order behind a [?]. *)
Theorem build_url_meets_spec (base code : string) (params : params_t) :
  params ≠ [] →
  lists_unquoted params →
  build_url base code params = spec_build_url base code params.
Proof.
  intros Hne Hlists. rewrite build_url_nonempty by exact Hne.
  unfold spec_build_url. rewrite encode_params_concat.
  replace (List.map pairs_of params) with (List.map spec_pairs params);
    [reflexivity|].
  symmetry. apply List.map_ext_in. intros [key v] Hin.
  apply pairs_of_spec_pairs. intros l ->.
  apply (Hlists key l). now apply list_elem_of_In.
Qed.

Lemma build_url_meets_spec_witness :
  build_url "https://sfbay.craigslist.org" "boa"
            [("hasPic", VList [SStr "1"]); ("sort", str "priceasc")]
  = "https://sfbay.craigslist.org/search/boa?hasPic=1&sort=priceasc#search=2~gallery~0".
Proof.
  refine (build_url_meets_spec "https://sfbay.craigslist.org" "boa"
            [("hasPic", VList [SStr "1"]); ("sort", str "priceasc")] _ _).
  - discriminate.
  - intros key l Hin.
    apply list_elem_of_In in Hin.
    destruct Hin as [Heq | [Heq | []]]; inversion Heq; reflexivity.
Defined.

(** The same example for any base URL. *)
Lemma build_url_list_example (base : string) :
  build_url base "boa" [("hasPic", VList [SStr "1"]); ("sort", str "priceasc")]
  = base +:+ "/search/boa?hasPic=1&sort=priceasc#search=2~gallery~0".
Proof.
  unfold build_url. rewrite !append_assoc. reflexivity.
Qed.

End EncodingRules.

(* ===================================================================== *)
(** ** Regions and task assembly                                          *)
(* ===================================================================== *)

Section Assembly.

Lemma REGIONS_keys_NoDup : NoDup (REGIONS_items.*1).
Proof. apply (bool_decide_unpack _). vm_compute. exact I. Qed.

Lemma REGIONS_lookup_item (r : string) (cfg : region_config) :
  (r, cfg) ∈ REGIONS_items ↔ REGIONS !! r = Some cfg.
Proof.
  unfold REGIONS. split.
  - apply elem_of_list_to_map_1, REGIONS_keys_NoDup.
  - apply elem_of_list_to_map_2.
Qed.

Lemma REGIONS_choice (r : string) :
  r ∈ REGIONS_items.*1 ↔ ∃ cfg, REGIONS !! r = Some cfg.
Proof.
  rewrite list_elem_of_fmap. split.
  - intros [[r' cfg] [-> Hin]]. exists cfg. now apply REGIONS_lookup_item.
  - intros [cfg Hcfg]. exists (r, cfg). split; [reflexivity|].
    now apply REGIONS_lookup_item.
Qed.

Lemma region_prefixes_from_REGIONS :
  region_prefixes = (λ kc : string * region_config, (kc.1, url_prefix kc.2)) <$> REGIONS_items.
Proof. reflexivity. Qed.

Lemma REGIONS_getitem_Some (r : string) (cfg : region_config) :
  REGIONS !! r = Some cfg → REGIONS_getitem r = Ok cfg.
Proof. unfold REGIONS_getitem. now intros ->. Qed.

Lemma enumerate_from_lookup {A : Type} (l : list A) (start i : nat) :
  enumerate_from start l !! i = (λ x, (start + i, x)) <$> l !! i.
Proof.
  revert start i; induction l as [|x l IH]; intros start [|i]; simpl; try reflexivity.
  - now rewrite Nat.add_0_r.
  - rewrite IH. now rewrite Nat.add_succ_r.
Qed.

Lemma enumerate_lookup {A : Type} (l : list A) (i : nat) :
  enumerate l !! i = (λ x, (i, x)) <$> l !! i.
Proof. apply enumerate_from_lookup. Qed.

Lemma enumerate_from_length {A : Type} (l : list A) (start : nat) :
  length (enumerate_from start l) = length l.
Proof.
  revert start; induction l as [|x l IH]; intros start; simpl; [reflexivity|].
  now rewrite IH.
Qed.

Lemma generate_cars_trucks_tasks_spec (r : string) (cfg : region_config) :
  REGIONS !! r = Some cfg →
  generate_cars_trucks_tasks r
  = Ok (List.map (task_of "cars_trucks" "cta" cfg) (enumerate car_tasks)).
Proof.
  intros Hcfg. unfold generate_cars_trucks_tasks.
  rewrite (REGIONS_getitem_Some r cfg Hcfg).
  exact (f_equal Ok (fold_left_snoc (task_of "cars_trucks" "cta" cfg) (enumerate car_tasks) [])).
Qed.

Lemma generate_motorcycles_tasks_spec (r : string) (cfg : region_config) :
  REGIONS !! r = Some cfg →
  generate_motorcycles_tasks r
  = Ok (List.map (task_of "motorcycles" "mca" cfg) (enumerate motorcycle_tasks)).
Proof.
  intros Hcfg. unfold generate_motorcycles_tasks.
  rewrite (REGIONS_getitem_Some r cfg Hcfg).
  exact (f_equal Ok (fold_left_snoc (task_of "motorcycles" "mca" cfg) (enumerate motorcycle_tasks) [])).
Qed.

Lemma generate_rvs_camp_tasks_spec (r : string) (cfg : region_config) :
  REGIONS !! r = Some cfg →
  generate_rvs_camp_tasks r
  = Ok (List.map (task_of "rvs_camp" "rva" cfg) (enumerate rv_tasks)).
Proof.
  intros Hcfg. unfold generate_rvs_camp_tasks.
  rewrite (REGIONS_getitem_Some r cfg Hcfg).
  exact (f_equal Ok (fold_left_snoc (task_of "rvs_camp" "rva" cfg) (enumerate rv_tasks) [])).
Qed.

Lemma generate_boats_tasks_spec (r : string) (cfg : region_config) :
  REGIONS !! r = Some cfg →
  generate_boats_tasks r
  = Ok (List.map (task_of "boats" "boa" cfg) (enumerate boat_tasks)).
Proof.
  intros Hcfg. unfold generate_boats_tasks.
  rewrite (REGIONS_getitem_Some r cfg Hcfg).
  exact (f_equal Ok (fold_left_snoc (task_of "boats" "boa" cfg) (enumerate boat_tasks) [])).
Qed.

Lemma category_generators_spec
    (name code : string) (table : list task_data) (gen : generator)
    (r : string) (cfg : region_config) :
  (name, code, table, gen) ∈ category_generators →
  REGIONS !! r = Some cfg →
  gen r = Ok (List.map (task_of name code cfg) (enumerate table)).
Proof.
  intros Hin Hcfg. apply list_elem_of_In in Hin.
  destruct Hin as [Heq | [Heq | [Heq | [Heq | []]]]]; inversion Heq; subst.
  - now apply generate_cars_trucks_tasks_spec.
  - now apply generate_motorcycles_tasks_spec.
  - now apply generate_rvs_camp_tasks_spec.
  - now apply generate_boats_tasks_spec.
Qed.

Lemma run_generators_spec (r : string) (cfg : region_config) :
  REGIONS !! r = Some cfg →
  run_generators generators r [] = Ok (all_tasks_of cfg).
Proof.
  intros Hcfg. unfold generators, run_generators.
  rewrite (generate_cars_trucks_tasks_spec r cfg Hcfg),
          (generate_motorcycles_tasks_spec r cfg Hcfg),
          (generate_rvs_camp_tasks_spec r cfg Hcfg),
          (generate_boats_tasks_spec r cfg Hcfg).
  cbv beta iota delta [mbind result_bind]. unfold all_tasks_of.
  now rewrite app_nil_l, <- !app_assoc.
Qed.

Lemma all_tasks_length (cfg : region_config) : length (all_tasks_of cfg) = 100.
Proof.
  unfold all_tasks_of, enumerate.
  rewrite !length_app, !length_map, !enumerate_from_length. reflexivity.
Qed.

Lemma all_tasks_ids_NoDup (cfg : region_config) : NoDup (task_id <$> all_tasks_of cfg).
Proof. apply (bool_decide_unpack _). vm_compute. exact I. Qed.

Lemma all_tasks_counts (cfg : region_config) :
  count_category "cars_trucks" (all_tasks_of cfg) = 30
  ∧ count_category "motorcycles" (all_tasks_of cfg) = 25
  ∧ count_category "rvs_camp" (all_tasks_of cfg) = 23
  ∧ count_category "boats" (all_tasks_of cfg) = 22.
Proof. repeat split; vm_compute; reflexivity. Qed.

Lemma task_of_starts_with_prefix
    (name code : string) (cfg : region_config) (it : nat * task_data) :
  let t := task_of name code cfg it in
  Py.startswith (url t) (url_prefix cfg) = true
  ∧ Forall (Forall (λ u, Py.startswith u (url_prefix cfg) = true)) (gt_urls t).
Proof.
  split; simpl.
  - apply startswith_append.
  - repeat constructor. apply build_url_startswith.
Qed.

Lemma all_tasks_start_with_prefix (cfg : region_config) :
  Forall (λ t, Py.startswith (url t) (url_prefix cfg) = true
               ∧ Forall (Forall (λ u, Py.startswith u (url_prefix cfg) = true)) (gt_urls t))
         (all_tasks_of cfg).
Proof.
  unfold all_tasks_of. rewrite !Forall_app.
  repeat split; apply List.Forall_map, Forall_forall; intros it _;
    apply task_of_starts_with_prefix.
Qed.

End Assembly.

Section Generation.

Lemma lookup_map {A B : Type} (f : A → B) (l : list A) (i : nat) :
  List.map f l !! i = f <$> l !! i.
Proof.
  revert i; induction l as [|x l IH]; intros [|i]; simpl; try reflexivity.
  apply IH.
Qed.

(** C4: for each of the five regions, every URL that [build_url] makes
    from the region's base URL starts with the region's [url_prefix], and
    so do the [url] and the ground-truth URLs of every task generated for
    the region. *)
Theorem region_urls_start_with_prefix (r pre : string) :
  (r, pre) ∈ region_prefixes →
  ∃ cfg tasks,
    REGIONS !! r = Some cfg
    ∧ url_prefix cfg = pre
    ∧ (∀ code params, Py.startswith (build_url pre code params) pre = true)
    ∧ run_generators generators r [] = Ok tasks
    ∧ Forall (λ t, Py.startswith (url t) pre = true
                   ∧ Forall (Forall (λ u, Py.startswith u pre = true)) (gt_urls t))
             tasks.
Proof.
  rewrite region_prefixes_from_REGIONS, list_elem_of_fmap.
  intros [[r' cfg] [Heq Hin]]. simpl in Heq. inversion Heq; subst r pre; clear Heq.
  apply REGIONS_lookup_item in Hin.
  exists cfg, (all_tasks_of cfg). repeat split.
  - exact Hin.
  - intros code params. apply build_url_startswith.
  - now apply run_generators_spec.
  - apply all_tasks_start_with_prefix.
Qed.

Lemma region_urls_start_with_prefix_witness :
  ∃ cfg tasks,
    REGIONS !! "newyork" = Some cfg
    ∧ url_prefix cfg = "https://newyork.craigslist.org"
    ∧ (∀ code params,
         Py.startswith (build_url "https://newyork.craigslist.org" code params)
                       "https://newyork.craigslist.org" = true)
    ∧ run_generators generators "newyork" [] = Ok tasks
    ∧ Forall (λ t, Py.startswith (url t) "https://newyork.craigslist.org" = true
                   ∧ Forall (Forall (λ u, Py.startswith u "https://newyork.craigslist.org" = true))
                            (gt_urls t))
             tasks.
Proof.
  apply (region_urls_start_with_prefix "newyork" "https://newyork.craigslist.org").
  apply (bool_decide_unpack _). vm_compute. exact I.
Defined.

(** C5: for every valid region key the four generators together give
    exactly 100 task records, 30 of category [cars_trucks], 25
    [motorcycles], 23 [rvs_camp] and 22 [boats], and the 100 [task_id]
    values are pairwise distinct. *)
Theorem run_gives_100_distinct_tasks (r : string) :
  r ∈ REGIONS_items.*1 →
  ∃ tasks,
    run_generators generators r [] = Ok tasks
    ∧ length tasks = 100
    ∧ count_category "cars_trucks" tasks = 30
    ∧ count_category "motorcycles" tasks = 25
    ∧ count_category "rvs_camp" tasks = 23
    ∧ count_category "boats" tasks = 22
    ∧ NoDup (task_id <$> tasks).
Proof.
  intros [cfg Hcfg]%REGIONS_choice.
  exists (all_tasks_of cfg).
  split; [now apply run_generators_spec|].
  split; [apply all_tasks_length|].
  pose proof (all_tasks_counts cfg) as (H1 & H2 & H3 & H4).
  repeat split; try assumption. apply all_tasks_ids_NoDup.
Qed.

Lemma run_gives_100_distinct_tasks_witness :
  ∃ tasks,
    run_generators generators "chicago" [] = Ok tasks
    ∧ length tasks = 100
    ∧ count_category "cars_trucks" tasks = 30
    ∧ count_category "motorcycles" tasks = 25
    ∧ count_category "rvs_camp" tasks = 23
    ∧ count_category "boats" tasks = 22
    ∧ NoDup (task_id <$> tasks).
Proof.
  apply (run_gives_100_distinct_tasks "chicago").
  apply (bool_decide_unpack _). vm_compute. exact I.
Defined.

(** C9: in every category generator, the record emitted for the table
    entry at zero-based index [i] has the [task_id] made of the namespace
    prefix [navi_bench/craigslist/], the category name and [i], joined as a
    path, and its [gt_urls] is the list holding the one list that holds
    the one URL built by [build_url] with the category's code. *)
Theorem generator_record_at_index
    (name code : string) (table : list task_data) (gen : generator)
    (r : string) (cfg : region_config) (i : nat) (td : task_data) :
  (name, code, table, gen) ∈ category_generators →
  REGIONS !! r = Some cfg →
  table !! i = Some td →
  ∃ tasks t,
    gen r = Ok tasks
    ∧ length tasks = length table
    ∧ tasks !! i = Some t
    ∧ task_id t = "navi_bench/craigslist/" +:+ name +:+ "/" +:+ Py.str_of_nat i
    ∧ gt_urls t = [[build_url (url_prefix cfg) code (td_params td)]]
    ∧ l2_category t = name.
Proof.
  intros Hgen Hcfg Htd.
  exists (List.map (task_of name code cfg) (enumerate table)), (task_of name code cfg (i, td)).
  split; [exact (category_generators_spec name code table gen r cfg Hgen Hcfg)|].
  split; [now rewrite length_map; apply enumerate_from_length|].
  split; [|repeat split].
  now rewrite lookup_map, enumerate_lookup, Htd.
Qed.

Lemma generator_record_at_index_witness :
  ∃ tasks t,
    generate_boats_tasks "seattle" = Ok tasks
    ∧ length tasks = length boat_tasks
    ∧ tasks !! 21 = Some t
    ∧ task_id t = "navi_bench/craigslist/boats/21"
    ∧ gt_urls t = [["https://seattle.craigslist.org/search/boa?query=boat%20trailer&max_price=2500&hasPic=1&purveyor=owner#search=2~gallery~0"]]
    ∧ l2_category t = "boats".
Proof.
  refine (generator_record_at_index "boats" "boa" boat_tasks generate_boats_tasks
            "seattle"
            {| url_prefix := "https://seattle.craigslist.org";
               region_location := "Seattle, WA, United States";
               region_timezone := "America/Los_Angeles" |}
            21
            {| td_task := "Find boat trailers under $2,500 with images from owners.";
               td_params := [("query", str "boat trailer"); ("max_price", str "2500");
                             ("hasPic", str "1"); ("purveyor", str "owner")];
               td_difficulty := "hard" |} _ _ _).
  - apply list_elem_of_In. simpl. tauto.
  - vm_compute. reflexivity.
  - vm_compute. reflexivity.
Defined.

End Generation.

(* ===================================================================== *)
(** ** CSV export and the entry point                                     *)
(* ===================================================================== *)

Section CsvExport.

Lemma dict_to_list_row (t : TaskConfig) :
  Csv.dict_to_list fieldnames (task_to_csv_row t) = Ok (row_cells t).
Proof. reflexivity. Qed.

(** The row dictionary of a task: its keys are the header's [fieldnames]
    in order, and the cells that do not depend on the task are constants. *)
Lemma csv_row_columns (t : TaskConfig) :
  (task_to_csv_row t).*1
    = [ "task_id"; "task_generation_config_json"; "env"; "domain"; "l1_category";
        "l2_category"; "suggested_difficulty"; "suggested_hint";
        "suggested_max_steps"; "suggested_split"; "metadata_json" ]
  ∧ fieldnames = (task_to_csv_row t).*1
  ∧ dict_get (task_to_csv_row t) "suggested_hint" = Some (SStr "null")
  ∧ dict_get (task_to_csv_row t) "metadata_json" = Some (SStr "null")
  ∧ dict_get (task_to_csv_row t) "suggested_max_steps" = Some (SInt 0)
  ∧ dict_get (task_to_csv_row t) "suggested_split" = Some (SStr "validation")
  ∧ dict_get (task_to_csv_row t) "env" = Some (SStr "real")
  ∧ ∃ config_json,
      Csv.dict_to_list fieldnames (task_to_csv_row t)
      = Ok [ SStr (task_id t); SStr config_json; SStr "real"; SStr "craigslist";
             SStr "marketplace"; SStr (l2_category t); SStr (difficulty t);
             SStr "null"; SInt 0; SStr "validation"; SStr "null" ].
Proof.
  repeat split. eexists. reflexivity.
Qed.

Lemma for_each_cons {A : Type} (x : A) (l : list A) (body : A → io unit) (fs : files) :
  for_each (x :: l) body fs
  = match body x fs with
    | (Ok _, fs') => for_each l body fs'
    | (Raise e, fs') => (Raise e, fs')
    end.
Proof. reflexivity. Qed.

Lemma writerow_appends (f text : string) (t : TaskConfig) (fs : files) :
  writerow f (task_to_csv_row t) (<[f := text]> fs)
  = (Ok tt, <[f := text +:+ Csv.record (row_cells t)]> fs).
Proof.
  unfold writerow. rewrite dict_to_list_row.
  cbv beta iota delta [mbind io_bind lift write].
  now rewrite alter_insert_eq.
Qed.

Lemma writerows_append (f : string) (tasks : list TaskConfig) (text : string) (fs : files) :
  for_each tasks (λ t, writerow f (task_to_csv_row t)) (<[f := text]> fs)
  = (Ok tt,
     <[f := fold_left (λ text t, text +:+ Csv.record (row_cells t)) tasks text]> fs).
Proof.
  revert text; induction tasks as [|t tasks IH]; intros text; [reflexivity|].
  rewrite for_each_cons, writerow_appends. apply IH.
Qed.

Lemma parse_args_region (argv : cli) (args : Namespace) :
  parse_args argv = Ok args → ∃ cfg, REGIONS !! region args = Some cfg.
Proof.
  unfold parse_args. case_bool_decide as Hin; [|discriminate].
  intros Heq; inversion Heq; subst args; simpl.
  now apply REGIONS_choice.
Qed.

Lemma parse_args_outcomes (argv : cli) :
  (∃ args, parse_args argv = Ok args) ∨ parse_args argv = Raise (SystemExit 2).
Proof.
  unfold parse_args. case_bool_decide; [left | right]; eauto.
Qed.

Lemma main_body_parse_refused
    (os : opener) (gens : list (string * generator)) (argv : cli) (fs : files) (e : exn) :
  parse_args argv = Raise e → main_body os gens argv fs = (Raise e, fs).
Proof. intros Hargs. unfold main_body. now rewrite Hargs. Qed.

(** [main_body] once the arguments are parsed and the generators have
    run: the count is checked, only then is the file opened, and only
    when it opens is it written. *)
Lemma main_body_after_generation
    (os : opener) (gens : list (string * generator)) (argv : cli) (fs : files)
    (args : Namespace) (tasks : list TaskConfig) :
  parse_args argv = Ok args →
  run_generators gens (region args) [] = Ok tasks →
  main_body os gens argv fs
  = if (length tasks =? 100)%nat
    then match os (output args) with
         | Opened f => (Ok tt, <[f := csv_text tasks]> fs)
         | Refused msg => (Raise (OSError msg), fs)
         end
    else (Raise (AssertionError ("Expected 100 tasks, got " +:+ Py.str_of_nat (length tasks))), fs).
Proof.
  intros Hargs Hrun.
  destruct (parse_args_region argv args Hargs) as [cfg Hcfg].
  unfold main_body. rewrite Hargs.
  cbv beta iota delta [mbind io_bind lift py_assert].
  rewrite (REGIONS_getitem_Some _ cfg Hcfg), Hrun.
  destruct (length tasks =? 100)%nat; [|reflexivity].
  cbv beta iota delta [open_w writeheader write].
  destruct (os (output args)) as [f | msg]; [|reflexivity].
  rewrite alter_insert_eq. apply writerows_append.
Qed.

(** C6: when the generators return a number of tasks other than 100,
    [main] stops on the assertion and the files are what they were: the
    output file is neither opened nor written. *)
Theorem count_mismatch_writes_nothing
    (os : opener) (gens : list (string * generator)) (argv : cli) (fs : files)
    (args : Namespace) (tasks : list TaskConfig) :
  parse_args argv = Ok args →
  run_generators gens (region args) [] = Ok tasks →
  length tasks ≠ 100 →
  main_body os gens argv fs
  = (Raise (AssertionError ("Expected 100 tasks, got " +:+ Py.str_of_nat (length tasks))), fs).
Proof.
  intros Hargs Hrun Hlen.
  rewrite (main_body_after_generation os gens argv fs args tasks Hargs Hrun).
  now apply Nat.eqb_neq in Hlen as ->.
Qed.

Lemma count_mismatch_writes_nothing_witness :
  main_body plain_paths [("boats", generate_boats_tasks)]
            {| cli_output := Some "out.csv"; cli_region := None |}
            {[ "out.csv" := "kept" ]}
  = (Raise (AssertionError "Expected 100 tasks, got 22"), {[ "out.csv" := "kept" ]}).
Proof.
  refine (count_mismatch_writes_nothing plain_paths
            [("boats", generate_boats_tasks)]
            {| cli_output := Some "out.csv"; cli_region := None |}
            {[ "out.csv" := "kept" ]}
            {| output := "out.csv"; region := "sfbay" |}
            (List.map (task_of "boats" "boa"
                         {| url_prefix := "https://sfbay.craigslist.org";
                            region_location := "San Francisco, CA, United States";
                            region_timezone := "America/Los_Angeles" |})
                      (enumerate boat_tasks)) _ _ _).
  - vm_compute. reflexivity.
  - vm_compute. reflexivity.
  - vm_compute. lia.
Defined.

(** The count check passes in [main] itself, for every command line the
    parser accepts; when the output path opens, the file then holds the
    header and the 100 rows. *)
Lemma main_writes_csv (os : opener) (argv : cli) (args : Namespace)
    (cfg : region_config) (f : string) (fs : files) :
  parse_args argv = Ok args →
  REGIONS !! region args = Some cfg →
  os (output args) = Opened f →
  main os argv fs = (Ok tt, <[f := csv_text (all_tasks_of cfg)]> fs).
Proof.
  intros Hargs Hcfg Hopen. unfold main.
  rewrite (main_body_after_generation os generators argv fs args (all_tasks_of cfg) Hargs
             (run_generators_spec _ cfg Hcfg)).
  now rewrite all_tasks_length, Hopen.
Qed.

Lemma main_open_refused (os : opener) (argv : cli) (args : Namespace)
    (msg : string) (fs : files) :
  parse_args argv = Ok args →
  os (output args) = Refused msg →
  main os argv fs = (Raise (OSError msg), fs).
Proof.
  intros Hargs Hopen. destruct (parse_args_region argv args Hargs) as [cfg Hcfg].
  unfold main.
  rewrite (main_body_after_generation os generators argv fs args (all_tasks_of cfg) Hargs
             (run_generators_spec _ cfg Hcfg)).
  now rewrite all_tasks_length, Hopen.
Qed.

(** A run of [main] that succeeds has parsed its arguments and opened the
    output path. *)
Lemma main_success (os : opener) (argv : cli) (fs : files) :
  (main os argv fs).1 = Ok tt →
  ∃ args cfg f,
    parse_args argv = Ok args ∧ REGIONS !! region args = Some cfg
    ∧ os (output args) = Opened f.
Proof.
  intros Hok. destruct (parse_args_outcomes argv) as [[args Hargs] | Hexit].
  - destruct (parse_args_region argv args Hargs) as [cfg Hcfg].
    destruct (os (output args)) as [f | msg] eqn:Hopen.
    + now exists args, cfg, f.
    + rewrite (main_open_refused os argv args msg fs Hargs Hopen) in Hok. discriminate.
  - unfold main in Hok.
    rewrite (main_body_parse_refused os generators argv fs _ Hexit) in Hok. discriminate.
Qed.










(** The strings that reach [Json.dumps] are ASCII in every region. *)
Lemma json_input_ascii (r : string) (cfg : region_config) :
  REGIONS !! r = Some cfg →
  Forall (λ t, task_text_ascii t = true) (all_tasks_of cfg).
Proof.
  intros Hin%REGIONS_lookup_item. apply list_elem_of_In in Hin.
  destruct Hin as [Heq | [Heq | [Heq | [Heq | [Heq | []]]]]]; inversion Heq; subst;
    apply Forall_forall; intros t Ht; apply list_elem_of_In in Ht;
    revert t Ht; apply List.forallb_forall; vm_compute; reflexivity.
Qed.

End CsvExport.

(* ===================================================================== *)
(** ** More on build_url and the percent-encoding                         *)
(* ===================================================================== *)

Section UrlShape.

Lemma all_chars_append (p : ascii → bool) (s t : string) :
  all_chars p (s +:+ t) = all_chars p s && all_chars p t.
Proof.
  unfold all_chars.
  induction s as [|c s IH]; [reflexivity|].
  rewrite append_cons. simpl. now rewrite IH, andb_assoc.
Qed.

Lemma all_chars_char_in (p : ascii → bool) (c : ascii) (s : string) :
  all_chars p s = true → p c = false → Py.char_in c s = false.
Proof.
  unfold all_chars, Py.char_in.
  induction s as [|d s IH]; simpl; [reflexivity|].
  intros [Hd Hs]%andb_prop Hc. rewrite (IH Hs Hc), orb_false_r.
  destruct (Ascii.eqb_spec c d) as [-> | _]; [congruence | reflexivity].
Qed.

Lemma length_append (s t : string) :
  String.length (s +:+ t) = String.length s + String.length t.
Proof.
  induction s as [|c s IH]; [reflexivity|].
  rewrite append_cons. simpl. now rewrite IH.
Qed.

Lemma join_middle (sep a b : string) (l1 l2 : list string) :
  Py.join sep (l1 ++ (a +:+ sep +:+ b) :: l2) = Py.join sep (l1 ++ a :: b :: l2).
Proof.
  unfold Py.join. induction l1 as [|x l1 IH].
  - destruct l2 as [|y l2]; simpl; [reflexivity|].
    now rewrite !append_assoc.
  - change ((x :: l1) ++ ?l) with (x :: (l1 ++ l)).
    destruct l1 as [|x' l1]; simpl in *; now rewrite IH.
Qed.

(** X1: every URL is the base, [/search/], the category code, a query
    segment and the fragment, in this order; the query segment is empty
    exactly when the mapping is empty. *)
Theorem build_url_segments (base code : string) (params : params_t) :
  ∃ q, build_url base code params = base +:+ "/search/" +:+ code +:+ q +:+ fragment
       ∧ (q = EmptyString ↔ params = []).
Proof.
  destruct params as [|kv params].
  - exists EmptyString. split; [|done].
    unfold build_url. now rewrite !append_assoc.
  - exists ("?" +:+ Py.join "&" (encode_params (kv :: params))). split.
    + now rewrite build_url_nonempty.
    + split; discriminate.
Qed.

Lemma build_url_factor (base code : string) (params : params_t) :
  build_url base code params = base +:+ build_url EmptyString code params.
Proof.
  unfold build_url. destruct params as [|kv params]; now rewrite !append_assoc.
Qed.

(** X2: the base URL enters the result as a prefix and in no other way:
    the URL for a base is the base followed by the URL for the empty base,
    so two bases give URLs that differ in the base alone. *)
Theorem build_url_base_is_prefix (base base' code : string) (params : params_t) :
  build_url base code params = base +:+ build_url EmptyString code params
  ∧ ∃ rest, build_url base code params = base +:+ rest
            ∧ build_url base' code params = base' +:+ rest.
Proof.
  split; [apply build_url_factor|].
  exists (build_url EmptyString code params). split; apply build_url_factor.
Qed.

(** X3: the number of pairs in the query is the sum, over the parameters,
    of one for a parameter under a free-text name or with a scalar value,
    and of the length of the list otherwise. *)
Theorem encode_params_length (params : params_t) :
  length (encode_params params) = sum_list (List.map pair_count params).
Proof.
  rewrite encode_params_concat.
  induction params as [|[key v] params IH]; [reflexivity|].
  simpl. rewrite length_app, IH. f_equal.
  unfold pairs_of, encode_step, pair_count. simpl.
  destruct (is_quoted_key key); [reflexivity|].
  destruct v as [x | l]; [reflexivity|].
  now rewrite fold_left_snoc, app_nil_l, List.length_map.
Qed.

(** X4: an empty list under a name other than the two free-text names
    adds no pair, wherever it stands; a mapping that holds nothing else
    still gets the question mark, with nothing behind it. *)
Theorem empty_list_adds_nothing
    (base code key : string) (before after : params_t) :
  is_quoted_key key = false →
  encode_params (before ++ (key, VList []) :: after)
    = encode_params before ++ encode_params after
  ∧ build_url base code [(key, VList [])]
    = base +:+ "/search/" +:+ code +:+ "?" +:+ fragment.
Proof.
  intros Hkey.
  assert (Hpairs : pairs_of (key, VList []) = []).
  { unfold pairs_of, encode_step. now rewrite Hkey. }
  split.
  - now rewrite encode_params_app, encode_params_cons, Hpairs.
  - rewrite build_url_nonempty by discriminate.
    now rewrite encode_params_cons, Hpairs.
Qed.

Lemma empty_list_adds_nothing_witness :
  build_url "https://sfbay.craigslist.org" "cta" [("hasPic", VList [])]
  = "https://sfbay.craigslist.org/search/cta?#search=2~gallery~0".
Proof.
  destruct (empty_list_adds_nothing "https://sfbay.craigslist.org" "cta" "hasPic" [] []
              eq_refl) as [_ Hurl].
  exact Hurl.
Defined.

(** X5: a scalar under any other name is written as it is, so its text
    can pass for further parameters: a value [v1&k2=v2] under [k1] gives the
    query that the two parameters [k1=v1] and [k2=v2] give. *)
Theorem unquoted_value_not_escaped
    (base code k1 v1 k2 v2 : string) (before after : params_t) :
  is_quoted_key k1 = false →
  is_quoted_key k2 = false →
  build_url base code (before ++ (k1, VScalar (SStr (v1 +:+ "&" +:+ k2 +:+ "=" +:+ v2))) :: after)
  = build_url base code (before ++ (k1, VScalar (SStr v1)) :: (k2, VScalar (SStr v2)) :: after).
Proof.
  intros Hk1 Hk2.
  rewrite !build_url_nonempty by (now destruct before).
  do 4 f_equal.
  rewrite !encode_params_app, !encode_params_cons.
  unfold pairs_of, encode_step. rewrite Hk1, Hk2. simpl.
  rewrite <- join_middle. do 3 f_equal. now rewrite !append_assoc.
Qed.

Lemma unquoted_value_not_escaped_witness :
  build_url "https://sfbay.craigslist.org" "cta" [("max_price", str "8000&sort=priceasc")]
  = build_url "https://sfbay.craigslist.org" "cta"
              [("max_price", str "8000"); ("sort", str "priceasc")].
Proof.
  exact (unquoted_value_not_escaped "https://sfbay.craigslist.org" "cta"
           "max_price" "8000" "sort" "priceasc" [] [] eq_refl eq_refl).
Defined.

End UrlShape.

Section PercentEncoding.

Lemma quote_byte_quoted (c : ascii) : all_chars quoted_char (Py.quote_byte c) = true.
Proof.
  destruct c as [[] [] [] [] [] [] [] []]; vm_compute; reflexivity.
Qed.

Lemma quote_byte_length (c : ascii) : (1 <= String.length (Py.quote_byte c))%nat.
Proof.
  destruct c as [[] [] [] [] [] [] [] []]; vm_compute; lia.
Qed.

Lemma quote_length_ge (s : string) :
  (String.length s <= String.length (Py.quote s))%nat.
Proof.
  induction s as [|c s IH]; [reflexivity|].
  rewrite quote_cons, length_append. simpl.
  pose proof (quote_byte_length c). lia.
Qed.

Lemma quote_byte_cases (c : ascii) :
  (quote_keeps c = true ∧ Py.quote_byte c = String c EmptyString)
  ∨ (quote_keeps c = false ∧ ∃ h1 h2, Py.quote_byte c = String "%" (String h1 (String h2 EmptyString))).
Proof.
  unfold Py.quote_byte, quote_keeps.
  destruct (Py.always_safe c || Py.char_in c "/"); [left | right]; eauto.
Qed.

Lemma unquote_quote_byte (c : ascii) (rest : string) :
  unquote_to_bytes (Py.quote_byte c +:+ rest) = String c (unquote_to_bytes rest).
Proof.
  destruct c as [[] [] [] [] [] [] [] []]; reflexivity.
Qed.

(** X6: the output of [quote] is made of letters, digits, the marks
    [_.-~/] and the percent sign; so a value written under [query] or
    [auto_make_model] holds none of the characters [&], [=], [#], [?], [+]
    and the space, which would change how the URL is read. *)
Theorem quote_output_alphabet (s : string) :
  all_chars quoted_char (Py.quote s) = true
  ∧ Forall (λ c, Py.char_in c (Py.quote s) = false) (list_ascii_of_string "&=#?+ ").
Proof.
  assert (Hall : all_chars quoted_char (Py.quote s) = true).
  { induction s as [|c s IH]; [reflexivity|].
    now rewrite quote_cons, all_chars_append, quote_byte_quoted, IH. }
  split; [exact Hall|].
  repeat constructor; now apply (all_chars_char_in quoted_char).
Qed.

(** X7: [quote] loses nothing: decoding its output gives the text back,
    so two different values never get the same encoding. *)
Theorem unquote_quote (s : string) :
  unquote_to_bytes (Py.quote s) = s
  ∧ ∀ s', Py.quote s = Py.quote s' → s = s'.
Proof.
  assert (Hround : ∀ u, unquote_to_bytes (Py.quote u) = u).
  { intros u. induction u as [|c u IH]; [reflexivity|].
    now rewrite quote_cons, unquote_quote_byte, IH. }
  split; [apply Hround|].
  intros s' Heq. now rewrite <- (Hround s), <- (Hround s'), Heq.
Qed.

(** X8: [quote] returns its argument unchanged exactly when every
    character is a letter, a digit or one of [_.-~/]. *)
Theorem quote_fixes_safe_text (s : string) :
  Py.quote s = s ↔ all_chars quote_keeps s = true.
Proof.
  induction s as [|c s IH]; [done|].
  rewrite quote_cons.
  change (all_chars quote_keeps (String c s))
    with (quote_keeps c && all_chars quote_keeps s).
  destruct (quote_byte_cases c) as [[Hk ->] | [Hk (h1 & h2 & ->)]]; rewrite Hk.
  - rewrite append_cons, append_nil_l. simpl. rewrite <- IH.
    split; [now intros [= ->] | now intros ->].
  - simpl. split; [|discriminate].
    rewrite !append_cons, append_nil_l. intros [= _ Hs].
    pose proof (quote_length_ge s) as Hlen.
    rewrite <- Hs in Hlen at 1. simpl in Hlen. lia.
Qed.

End PercentEncoding.

(* ===================================================================== *)
(** ** More on the generators                                             *)
(* ===================================================================== *)

Section Generators.

Lemma REGIONS_getitem_None (r : string) :
  REGIONS !! r = None → REGIONS_getitem r = Raise (KeyError r).
Proof. unfold REGIONS_getitem. now intros ->. Qed.

(** X9: for a region key that is not in [REGIONS], each of the four
    generators raises [KeyError] on that key and builds no task, and so
    does the run of all four. *)
Theorem generator_unknown_region
    (name code : string) (table : list task_data) (gen : generator) (r : string) :
  (name, code, table, gen) ∈ category_generators →
  REGIONS !! r = None →
  gen r = Raise (KeyError r)
  ∧ run_generators generators r [] = Raise (KeyError r).
Proof.
  intros Hin Hr. pose proof (REGIONS_getitem_None r Hr) as Hget. split.
  - apply list_elem_of_In in Hin.
    destruct Hin as [Heq | [Heq | [Heq | [Heq | []]]]]; inversion Heq; subst;
      [unfold generate_cars_trucks_tasks | unfold generate_motorcycles_tasks
       | unfold generate_rvs_camp_tasks | unfold generate_boats_tasks];
      now rewrite Hget.
  - unfold generators, run_generators, generate_cars_trucks_tasks. now rewrite Hget.
Qed.

Lemma generator_unknown_region_witness :
  generate_rvs_camp_tasks "boston" = Raise (KeyError "boston")
  ∧ run_generators generators "boston" [] = Raise (KeyError "boston").
Proof.
  refine (generator_unknown_region "rvs_camp" "rva" rv_tasks generate_rvs_camp_tasks
            "boston" _ _).
  - apply list_elem_of_In. simpl. tauto.
  - vm_compute. reflexivity.
Defined.

Lemma all_tasks_vocabulary (cfg : region_config) :
  Forall (λ t, difficulty t ∈ ["easy"; "medium"; "hard"]
               ∧ l2_category t ∈ ["cars_trucks"; "motorcycles"; "rvs_camp"; "boats"])
         (all_tasks_of cfg).
Proof. apply (bool_decide_unpack _). vm_compute. exact I. Qed.

(** X10: for every valid region key, the [difficulty] of every generated
    task is one of [easy], [medium], [hard], and its [l2_category] is one of
    the four category names. *)
Theorem run_vocabulary (r : string) :
  r ∈ REGIONS_items.*1 →
  ∃ tasks,
    run_generators generators r [] = Ok tasks
    ∧ Forall (λ t, difficulty t ∈ ["easy"; "medium"; "hard"]
                   ∧ l2_category t ∈ ["cars_trucks"; "motorcycles"; "rvs_camp"; "boats"])
             tasks.
Proof.
  intros [cfg Hcfg]%REGIONS_choice. exists (all_tasks_of cfg).
  split; [now apply run_generators_spec | apply all_tasks_vocabulary].
Qed.

Lemma run_vocabulary_witness :
  ∃ tasks,
    run_generators generators "losangeles" [] = Ok tasks
    ∧ Forall (λ t, difficulty t ∈ ["easy"; "medium"; "hard"]
                   ∧ l2_category t ∈ ["cars_trucks"; "motorcycles"; "rvs_camp"; "boats"])
             tasks.
Proof.
  apply (run_vocabulary "losangeles").
  apply (bool_decide_unpack _). vm_compute. exact I.
Defined.

(** X11: in every category generator, the record for the table entry at
    index [i] carries the entry's description and difficulty, the region's
    location and timezone, and as [url] the region's prefix followed by
    [/search/] and the category's code; past the end of the table there is
    no record. *)
Theorem generator_record_fields
    (name code : string) (table : list task_data) (gen : generator)
    (r : string) (cfg : region_config) (i : nat) :
  (name, code, table, gen) ∈ category_generators →
  REGIONS !! r = Some cfg →
  ∃ tasks,
    gen r = Ok tasks
    ∧ match table !! i with
      | Some td =>
          ∃ t, tasks !! i = Some t
               ∧ task t = td_task td
               ∧ difficulty t = td_difficulty td
               ∧ url t = url_prefix cfg +:+ "/search/" +:+ code
               ∧ location t = region_location cfg
               ∧ timezone t = region_timezone cfg
      | None => tasks !! i = None
      end.
Proof.
  intros Hgen Hcfg.
  exists (List.map (task_of name code cfg) (enumerate table)).
  split; [exact (category_generators_spec name code table gen r cfg Hgen Hcfg)|].
  rewrite lookup_map, enumerate_lookup.
  destruct (table !! i) as [td|]; [|reflexivity].
  exists (task_of name code cfg (i, td)). repeat split.
Qed.

Lemma generator_record_fields_witness :
  ∃ tasks,
    generate_cars_trucks_tasks "chicago" = Ok tasks
    ∧ ∃ t, tasks !! 4 = Some t
           ∧ task t = "Find cars priced between $5,000 and $12,000."
           ∧ difficulty t = "easy"
           ∧ url t = "https://chicago.craigslist.org/search/cta"
           ∧ location t = "Chicago, IL, United States"
           ∧ timezone t = "America/Chicago".
Proof.
  refine (generator_record_fields "cars_trucks" "cta" car_tasks generate_cars_trucks_tasks
            "chicago"
            {| url_prefix := "https://chicago.craigslist.org";
               region_location := "Chicago, IL, United States";
               region_timezone := "America/Chicago" |} 4 _ _).
  - apply list_elem_of_In. simpl. tauto.
  - vm_compute. reflexivity.
Defined.

Lemma build_url_extends_search_url (base code : string) (params : params_t) :
  Py.startswith (build_url base code params) (base +:+ "/search/" +:+ code) = true.
Proof.
  unfold build_url. destruct params as [|kv params].
  - apply startswith_append.
  - rewrite append_assoc. apply startswith_append.
Qed.

(** X12: for every valid region key, each ground-truth URL of a generated
    task starts with the task's own [url], the unfiltered search URL of its
    category. *)
Theorem ground_truth_extends_url (r : string) :
  r ∈ REGIONS_items.*1 →
  ∃ tasks,
    run_generators generators r [] = Ok tasks
    ∧ Forall (λ t, Forall (Forall (λ u, Py.startswith u (url t) = true)) (gt_urls t)) tasks.
Proof.
  intros [cfg Hcfg]%REGIONS_choice. exists (all_tasks_of cfg).
  split; [now apply run_generators_spec|].
  unfold all_tasks_of. rewrite !Forall_app.
  repeat split; apply List.Forall_map, Forall_forall; intros it _;
    repeat constructor; apply build_url_extends_search_url.
Qed.

Lemma ground_truth_extends_url_witness :
  ∃ tasks,
    run_generators generators "seattle" [] = Ok tasks
    ∧ Forall (λ t, Forall (Forall (λ u, Py.startswith u (url t) = true)) (gt_urls t)) tasks.
Proof.
  apply (ground_truth_extends_url "seattle").
  apply (bool_decide_unpack _). vm_compute. exact I.
Defined.

Lemma region_free_tasks (cfg cfg' : region_config) :
  List.map region_free (all_tasks_of cfg) = List.map region_free (all_tasks_of cfg').
Proof.
  unfold all_tasks_of. rewrite !List.map_app, !List.map_map. reflexivity.
Qed.

(** X13: the region enters a task through its URLs, location and timezone
    only: two valid region keys give the same [task_id], description,
    difficulty and category, task by task. *)
Theorem tasks_region_free (r r' : string) :
  r ∈ REGIONS_items.*1 →
  r' ∈ REGIONS_items.*1 →
  ∃ tasks tasks',
    run_generators generators r [] = Ok tasks
    ∧ run_generators generators r' [] = Ok tasks'
    ∧ List.map region_free tasks = List.map region_free tasks'.
Proof.
  intros [cfg Hcfg]%REGIONS_choice [cfg' Hcfg']%REGIONS_choice.
  exists (all_tasks_of cfg), (all_tasks_of cfg').
  split; [now apply run_generators_spec|].
  split; [now apply run_generators_spec | apply region_free_tasks].
Qed.

Lemma tasks_region_free_witness :
  ∃ tasks tasks',
    run_generators generators "sfbay" [] = Ok tasks
    ∧ run_generators generators "newyork" [] = Ok tasks'
    ∧ List.map region_free tasks = List.map region_free tasks'.
Proof.
  apply (tasks_region_free "sfbay" "newyork");
    apply (bool_decide_unpack _); vm_compute; exact I.
Defined.

End Generators.

Section Distinctness.

Lemma all_gt_urls_app (a b : list TaskConfig) :
  all_gt_urls (a ++ b) = all_gt_urls a ++ all_gt_urls b.
Proof.
  unfold all_gt_urls. now rewrite List.map_app, !concat_app.
Qed.

Lemma all_gt_urls_task_of (name code : string) (cfg : region_config)
    (l : list (nat * task_data)) :
  all_gt_urls (List.map (task_of name code cfg) l)
  = List.map (String.append (url_prefix cfg))
             (all_gt_urls (List.map (task_of name code no_region) l)).
Proof.
  unfold all_gt_urls. induction l as [|it l IH]; [reflexivity|].
  simpl. rewrite IH. f_equal. apply build_url_factor.
Qed.

Lemma all_gt_urls_factor (cfg : region_config) :
  all_gt_urls (all_tasks_of cfg)
  = List.map (String.append (url_prefix cfg)) (all_gt_urls (all_tasks_of no_region)).
Proof.
  unfold all_tasks_of.
  rewrite !all_gt_urls_app, !List.map_app.
  now rewrite <- !all_gt_urls_task_of.
Qed.

Lemma NoDup_map_inj {A B : Type} (f : A → B) (l : list A) :
  (∀ x y, f x = f y → x = y) → NoDup l → NoDup (List.map f l).
Proof.
  intros Hinj. induction 1 as [|x l Hx Hl IH]; simpl; constructor; [|exact IH].
  intros Hin. apply list_elem_of_In, List.in_map_iff in Hin.
  destruct Hin as (y & Heq & Hy). apply Hinj in Heq. subst y.
  now apply Hx, list_elem_of_In.
Qed.

Lemma search_paths_NoDup : NoDup (all_gt_urls (all_tasks_of no_region)).
Proof. apply (bool_decide_unpack _). vm_compute. exact I. Qed.

Lemma descriptions_NoDup (cfg : region_config) : NoDup (List.map task (all_tasks_of cfg)).
Proof. apply (bool_decide_unpack _). vm_compute. exact I. Qed.

(** X14: for every valid region key the 100 tasks have 100 ground-truth
    URLs, no two of them equal, and no two tasks share a description. *)
Theorem run_answers_distinct (r : string) :
  r ∈ REGIONS_items.*1 →
  ∃ tasks,
    run_generators generators r [] = Ok tasks
    ∧ length (all_gt_urls tasks) = 100
    ∧ NoDup (all_gt_urls tasks)
    ∧ NoDup (List.map task tasks).
Proof.
  intros [cfg Hcfg]%REGIONS_choice. exists (all_tasks_of cfg).
  split; [now apply run_generators_spec|].
  rewrite all_gt_urls_factor, List.length_map. split; [reflexivity|]. split.
  - apply NoDup_map_inj; [|apply search_paths_NoDup].
    intros u u' Heq. exact (String.app_inj (url_prefix cfg) u u' Heq).
  - apply descriptions_NoDup.
Qed.

Lemma run_answers_distinct_witness :
  ∃ tasks,
    run_generators generators "newyork" [] = Ok tasks
    ∧ length (all_gt_urls tasks) = 100
    ∧ NoDup (all_gt_urls tasks)
    ∧ NoDup (List.map task tasks).
Proof.
  apply (run_answers_distinct "newyork").
  apply (bool_decide_unpack _). vm_compute. exact I.
Defined.

End Distinctness.

Section GeneratorRuns.

Lemma result_bind_Ok {A B : Type} (a : A) (f : A → result B) : Ok a ≫= f = f a.
Proof. reflexivity. Qed.

Lemma result_bind_Raise {A B : Type} (e : exn) (f : A → result B) :
  Raise e ≫= f = Raise e.
Proof. reflexivity. Qed.

Lemma run_generators_cons (name : string) (gen : generator)
    (gens : list (string * generator)) (r : string) (acc : list TaskConfig) :
  run_generators ((name, gen) :: gens) r acc
  = gen r ≫= (λ tasks, run_generators gens r (acc ++ tasks)).
Proof. reflexivity. Qed.

Lemma run_generators_app (g1 g2 : list (string * generator)) (r : string)
    (acc : list TaskConfig) :
  run_generators (g1 ++ g2) r acc = run_generators g1 r acc ≫= run_generators g2 r.
Proof.
  revert acc; induction g1 as [|[name gen] g1 IH]; intros acc; [reflexivity|].
  change (((name, gen) :: g1) ++ g2) with ((name, gen) :: (g1 ++ g2)).
  rewrite !run_generators_cons.
  destruct (gen r) as [tasks | e]; [|reflexivity].
  rewrite !result_bind_Ok. apply IH.
Qed.

Lemma run_generators_acc (gens : list (string * generator)) (r : string)
    (acc : list TaskConfig) :
  run_generators gens r acc = run_generators gens r [] ≫= (λ tasks, Ok (acc ++ tasks)).
Proof.
  revert acc; induction gens as [|[name gen] gens IH]; intros acc.
  - change (Ok acc = Ok (acc ++ [])). now rewrite app_nil_r.
  - rewrite !run_generators_cons.
    destruct (gen r) as [tasks | e]; [|reflexivity].
    rewrite !result_bind_Ok, (IH (acc ++ tasks)), (IH ([] ++ tasks)).
    destruct (run_generators gens r []) as [rest | e]; [|reflexivity].
    rewrite !result_bind_Ok. now rewrite app_assoc.
Qed.

(** X15: running one list of generators after another is running their
    concatenation: the tasks are collected in the order of the generators,
    behind what was collected before, and the first exception ends the run
    with nothing collected. *)
Theorem run_generators_compose (g1 g2 : list (string * generator)) (r : string)
    (acc : list TaskConfig) :
  run_generators (g1 ++ g2) r acc
  = match run_generators g1 r [] with
    | Ok tasks1 =>
        match run_generators g2 r [] with
        | Ok tasks2 => Ok (acc ++ tasks1 ++ tasks2)
        | Raise e => Raise e
        end
    | Raise e => Raise e
    end.
Proof.
  rewrite run_generators_app, (run_generators_acc g1).
  destruct (run_generators g1 r []) as [tasks1 | e]; [|reflexivity].
  rewrite !result_bind_Ok, (run_generators_acc g2).
  destruct (run_generators g2 r []) as [tasks2 | e]; [|reflexivity].
  rewrite result_bind_Ok. now rewrite app_assoc.
Qed.

End GeneratorRuns.

(* ===================================================================== *)
(** ** More on the CSV row and on main                                    *)
(* ===================================================================== *)

Section ConfigJson.

Lemma escape_char_printable (c : ascii) :
  all_chars printable (Json.escape_char c) = true.
Proof.
  destruct c as [[] [] [] [] [] [] [] []]; vm_compute; reflexivity.
Qed.

Lemma all_chars_cons (p : ascii → bool) (c : ascii) (s : string) :
  all_chars p (String c s) = p c && all_chars p s.
Proof. reflexivity. Qed.

Lemma hex_lower_printable (m : N) : printable (Py.hex_lower m) = true.
Proof.
  unfold Py.hex_lower.
  destruct (List.nth_in_or_default (N.to_nat m)
              (list_ascii_of_string "0123456789abcdef") "0"%char) as [Hin | ->];
    [|reflexivity].
  revert Hin. generalize (nth (N.to_nat m) (list_ascii_of_string "0123456789abcdef") "0"%char).
  apply List.forallb_forall. reflexivity.
Qed.

Lemma u4_printable (n : N) : all_chars printable (Json.u4 n) = true.
Proof.
  unfold Json.u4. rewrite !all_chars_cons, !hex_lower_printable. reflexivity.
Qed.

Lemma surrogates_printable (n : N) : all_chars printable (Json.surrogates n) = true.
Proof.
  unfold Json.surrogates. cbv zeta. now rewrite all_chars_append, !u4_printable.
Qed.

Lemma escape_printable (s : string) : all_chars printable (Json.escape s) = true.
Proof.
  remember (String.length s) as n eqn:Hn. revert s Hn.
  induction n as [n IH] using lt_wf_ind. intros s Hn.
  assert (Hrec : ∀ s', (String.length s' < String.length s)%nat →
                       all_chars printable (Json.escape s') = true).
  { intros s' Hlt. apply (IH (String.length s')); [lia | reflexivity]. }
  clear IH Hn n.
  destruct s as [|c rest]; [reflexivity|].
  cbn [Json.escape]. cbv zeta.
  destruct (N_of_ascii c <? 128)%N.
  { rewrite all_chars_append, escape_char_printable, Hrec; [reflexivity | simpl; lia]. }
  destruct rest as [|c1 rest1]; [apply u4_printable|].
  destruct (N_of_ascii c <? 224)%N.
  { rewrite all_chars_append, u4_printable, Hrec; [reflexivity | simpl; lia]. }
  destruct rest1 as [|c2 rest2].
  { rewrite all_chars_append, u4_printable, Hrec; [reflexivity | simpl; lia]. }
  destruct (N_of_ascii c <? 240)%N.
  { rewrite all_chars_append, u4_printable, Hrec; [reflexivity | simpl; lia]. }
  destruct rest2 as [|c3 rest3].
  { rewrite all_chars_append, u4_printable, Hrec; [reflexivity | simpl; lia]. }
  rewrite all_chars_append, surrogates_printable, Hrec; [reflexivity | simpl; lia].
Qed.

Lemma encode_str_printable (s : string) :
  all_chars printable (Json.encode_str s) = true.
Proof.
  unfold Json.encode_str.
  change (String Py.dquote ?x) with (String Py.dquote EmptyString +:+ x).
  now rewrite !all_chars_append, escape_printable.
Qed.

Lemma join_printable (sep : string) (l : list string) :
  all_chars printable sep = true →
  Forall (λ s, all_chars printable s = true) l →
  all_chars printable (Py.join sep l) = true.
Proof.
  intros Hsep. unfold Py.join. induction 1 as [|x l Hx Hl IH]; [reflexivity|].
  destruct l as [|y l]; [exact Hx|].
  change (String.concat sep (x :: y :: l)) with (x +:+ sep +:+ String.concat sep (y :: l)).
  now rewrite !all_chars_append, Hx, Hsep, IH.
Qed.

Lemma dumps_printable : ∀ j : json, all_chars printable (Json.dumps j) = true.
Proof.
  fix IH 1. intros [s | l | items].
  - apply encode_str_printable.
  - change (Json.dumps (JList l))
      with ("[" +:+ Py.join ", " (List.map Json.dumps l) +:+ "]").
    rewrite !all_chars_append, join_printable; [reflexivity | reflexivity |].
    induction l as [|j l IHl]; constructor; [apply IH | exact IHl].
  - change (Json.dumps (JDict items))
      with ("{" +:+ Py.join ", "
                      (List.map (λ kv : string * json,
                                   let (k, v) := kv in
                                   Json.encode_str k +:+ ": " +:+ Json.dumps v) items)
                +:+ "}").
    rewrite !all_chars_append, join_printable; [reflexivity | reflexivity |].
    induction items as [|[k v] items IHl]; constructor; [|exact IHl].
    now rewrite !all_chars_append, encode_str_printable, IH.
Qed.

(** X16: whatever strings a task holds, its [task_generation_config_json]
    cell is made of printable ASCII characters only: it has no line break,
    no control character and no byte from 128 up. *)
Theorem config_json_printable (t : TaskConfig) :
  ∃ config_json,
    dict_get (task_to_csv_row t) "task_generation_config_json" = Some (SStr config_json)
    ∧ all_chars printable config_json = true
    ∧ Py.char_in Csv.CR config_json = false
    ∧ Py.char_in Csv.LF config_json = false.
Proof.
  eexists. split; [reflexivity|].
  pose proof (dumps_printable
    (JDict [ ("_target_", JStr "navi_bench.craigslist.craigslist_url_match.generate_task_config");
             ("url", JStr (url t)); ("task", JStr (task t));
             ("location", JStr (location t)); ("timezone", JStr (timezone t));
             ("gt_urls", JList (List.map (λ alt, JList (List.map JStr alt)) (gt_urls t))) ]))
    as Hp.
  split; [exact Hp|].
  split; now apply (all_chars_char_in printable).
Qed.

End ConfigJson.

Section MainOutcomes.

(** X17: a [--region] value outside the keys of [REGIONS] ends the program
    in the argument parser, with exit status 2, before any generator runs
    and with the files as they were. *)
Theorem invalid_region_exits
    (os : opener) (gens : list (string * generator)) (out : option string) (r : string)
    (fs : files) :
  r ∉ REGIONS_items.*1 →
  parse_args {| cli_output := out; cli_region := Some r |} = Raise (SystemExit 2)
  ∧ main_body os gens {| cli_output := out; cli_region := Some r |} fs
    = (Raise (SystemExit 2), fs).
Proof.
  intros Hr.
  assert (Hparse : parse_args {| cli_output := out; cli_region := Some r |}
                   = Raise (SystemExit 2)).
  { unfold parse_args. simpl. now case_bool_decide. }
  split; [exact Hparse|].
  unfold main_body. now rewrite Hparse.
Qed.

Lemma invalid_region_exits_witness :
  parse_args {| cli_output := None; cli_region := Some "boston" |} = Raise (SystemExit 2)
  ∧ main_body plain_paths generators {| cli_output := None; cli_region := Some "boston" |}
              {[ "dataset_100.csv" := "kept" ]}
    = (Raise (SystemExit 2), {[ "dataset_100.csv" := "kept" ]}).
Proof.
  apply (invalid_region_exits plain_paths generators None "boston"
           {[ "dataset_100.csv" := "kept" ]}).
  apply (bool_decide_unpack _). vm_compute. exact I.
Defined.

(** X18: when a generator raises, [main] ends with that exception: the
    count is not checked and the output file is not opened. *)
Theorem generator_exception_propagates
    (os : opener) (gens : list (string * generator)) (argv : cli) (fs : files)
    (args : Namespace) (e : exn) :
  parse_args argv = Ok args →
  run_generators gens (region args) [] = Raise e →
  main_body os gens argv fs = (Raise e, fs).
Proof.
  intros Hargs Hrun.
  destruct (parse_args_region argv args Hargs) as [cfg Hcfg].
  unfold main_body. rewrite Hargs.
  cbv beta iota delta [mbind io_bind lift].
  now rewrite (REGIONS_getitem_Some _ cfg Hcfg), Hrun.
Qed.

Lemma generator_exception_propagates_witness :
  main_body plain_paths
            [("cars_trucks", generate_cars_trucks_tasks);
             ("broken", λ _, Raise (ValueError "no data"))]
            {| cli_output := None; cli_region := None |} ∅
  = (Raise (ValueError "no data"), ∅).
Proof.
  refine (generator_exception_propagates plain_paths _ _ ∅
            {| output := "dataset_100.csv"; region := "sfbay" |} _ _ _).
  - vm_compute. reflexivity.
  - vm_compute. reflexivity.
Defined.



(** X20: when a run of [main] succeeds, the output path was opened as
    some file; that file is the only one the run has changed, what it holds
    afterwards does not depend on what any file held before, and a second
    run with the same arguments leaves the files as the first run left
    them. *)
Theorem main_footprint (os : opener) (argv : cli) (fs : files) :
  (main os argv fs).1 = Ok tt →
  ∃ args f,
    parse_args argv = Ok args
    ∧ os (output args) = Opened f
    ∧ (∀ g, g ≠ f → (main os argv fs).2 !! g = fs !! g)
    ∧ (∀ fs', (main os argv fs').2 !! f = (main os argv fs).2 !! f)
    ∧ main os argv (main os argv fs).2 = main os argv fs.
Proof.
  intros Hok.
  destruct (main_success os argv fs Hok) as (args & cfg & f & Hargs & Hcfg & Hopen).
  exists args, f. split; [exact Hargs|]. split; [exact Hopen|].
  rewrite (main_writes_csv os argv args cfg f fs Hargs Hcfg Hopen). cbn [snd].
  split; [|split].
  - intros g Hg. now rewrite lookup_insert_ne.
  - intros fs'. rewrite (main_writes_csv os argv args cfg f fs' Hargs Hcfg Hopen).
    cbn [snd]. now rewrite !lookup_insert_eq.
  - rewrite (main_writes_csv os argv args cfg f _ Hargs Hcfg Hopen).
    now rewrite insert_insert_eq.
Qed.

Lemma main_footprint_witness :
  ∃ args f,
    parse_args {| cli_output := Some "./out.csv"; cli_region := Some "seattle" |} = Ok args
    ∧ (λ _, Opened "/home/out.csv") (output args) = Opened f
    ∧ (∀ g, g ≠ f →
         (main (λ _, Opened "/home/out.csv")
               {| cli_output := Some "./out.csv"; cli_region := Some "seattle" |}
               {[ "/home/notes.txt" := "mine" ]}).2 !! g
         = ({[ "/home/notes.txt" := "mine" ]} : files) !! g)
    ∧ (∀ fs',
         (main (λ _, Opened "/home/out.csv")
               {| cli_output := Some "./out.csv"; cli_region := Some "seattle" |} fs').2 !! f
         = (main (λ _, Opened "/home/out.csv")
                 {| cli_output := Some "./out.csv"; cli_region := Some "seattle" |}
                 {[ "/home/notes.txt" := "mine" ]}).2 !! f)
    ∧ main (λ _, Opened "/home/out.csv")
           {| cli_output := Some "./out.csv"; cli_region := Some "seattle" |}
           (main (λ _, Opened "/home/out.csv")
                 {| cli_output := Some "./out.csv"; cli_region := Some "seattle" |}
                 {[ "/home/notes.txt" := "mine" ]}).2
      = main (λ _, Opened "/home/out.csv")
             {| cli_output := Some "./out.csv"; cli_region := Some "seattle" |}
             {[ "/home/notes.txt" := "mine" ]}.
Proof.
  apply (main_footprint (λ _, Opened "/home/out.csv")
           {| cli_output := Some "./out.csv"; cli_region := Some "seattle" |}
           {[ "/home/notes.txt" := "mine" ]}).
  vm_compute. reflexivity.
Defined.

(** X25: when the operating system refuses to open the output path,
    [main] ends with that [OSError]: the arguments were parsed and the
    tasks generated and counted, and no file has been changed. *)
Theorem open_refused_writes_nothing
    (os : opener) (argv : cli) (args : Namespace) (msg : string) (fs : files) :
  parse_args argv = Ok args →
  os (output args) = Refused msg →
  main os argv fs = (Raise (OSError msg), fs)
  ∧ ∃ tasks, run_generators generators (region args) [] = Ok tasks ∧ length tasks = 100.
Proof.
  intros Hargs Hopen. split; [now apply (main_open_refused os argv args)|].
  destruct (parse_args_region argv args Hargs) as [cfg Hcfg].
  exists (all_tasks_of cfg).
  split; [now apply run_generators_spec | apply all_tasks_length].
Qed.

Lemma open_refused_writes_nothing_witness :
  main (λ _, Refused "No such file or directory")
       {| cli_output := Some "no_such_dir/out.csv"; cli_region := None |}
       {[ "dataset_100.csv" := "kept" ]}
  = (Raise (OSError "No such file or directory"), {[ "dataset_100.csv" := "kept" ]})
  ∧ ∃ tasks, run_generators generators "sfbay" [] = Ok tasks ∧ length tasks = 100.
Proof.
  refine (open_refused_writes_nothing (λ _, Refused "No such file or directory")
            {| cli_output := Some "no_such_dir/out.csv"; cli_region := None |}
            {| output := "no_such_dir/out.csv"; region := "sfbay" |}
            "No such file or directory" {[ "dataset_100.csv" := "kept" ]} _ _).
  - vm_compute. reflexivity.
  - reflexivity.
Defined.

End MainOutcomes.

(* ===================================================================== *)
(** ** The summary counts                                                 *)
(* ===================================================================== *)

Section Summary.

Lemma dict_get_set {V : Type} (d : list (string * V)) (key key' : string) (v : V) :
  dict_get (dict_set d key v) key'
  = if String.eqb key key' then Some v else dict_get d key'.
Proof.
  induction d as [|[k w] d IH]; simpl.
  - now destruct (String.eqb key key').
  - destruct (String.eqb_spec k key) as [-> | Hk]; simpl.
    + now destruct (String.eqb key key').
    + rewrite IH. destruct (String.eqb_spec k key') as [-> | Hk']; [|reflexivity].
      destruct (String.eqb_spec key key') as [-> | _]; [done | reflexivity].
Qed.

Lemma dict_incr_sum (d : list (string * nat)) (key : string) :
  sum_list (List.map snd (dict_set d key (default 0 (dict_get d key) + 1)))
  = sum_list (List.map snd d) + 1.
Proof.
  induction d as [|[k w] d IH]; simpl; [reflexivity|].
  destruct (String.eqb k key); simpl; [lia|]. rewrite IH. lia.
Qed.

(** The counting loop of the summary, over any field and any start. *)
Lemma count_loop_get (f : TaskConfig → string) (tasks : list TaskConfig)
    (d : list (string * nat)) (key : string) :
  dict_get (fold_left (λ d t, dict_set d (f t) (default 0 (dict_get d (f t)) + 1)) tasks d) key
  = let c := length (List.filter (λ t, String.eqb (f t) key) tasks) in
    match dict_get d key with
    | Some n => Some (n + c)
    | None => if (c =? 0)%nat then None else Some c
    end.
Proof.
  revert d; induction tasks as [|t tasks IH]; intros d; simpl.
  - destruct (dict_get d key) as [n|]; [f_equal; lia | reflexivity].
  - rewrite IH, dict_get_set.
    destruct (String.eqb_spec (f t) key) as [-> | Hne]; simpl.
    + destruct (dict_get d key) as [n|]; simpl; f_equal; lia.
    + reflexivity.
Qed.

Lemma count_loop_sum (f : TaskConfig → string) (tasks : list TaskConfig)
    (d : list (string * nat)) :
  sum_list (List.map snd
              (fold_left (λ d t, dict_set d (f t) (default 0 (dict_get d (f t)) + 1)) tasks d))
  = sum_list (List.map snd d) + length tasks.
Proof.
  revert d; induction tasks as [|t tasks IH]; intros d; simpl; [lia|].
  rewrite IH, dict_incr_sum. lia.
Qed.

(** X21: after the loop, [category_counts] maps each category that
    occurs to the number of tasks that carry it and holds no other key,
    and its counts add up to the number of tasks. *)
Theorem category_counts_correct (tasks : list TaskConfig) (name : string) :
  dict_get (category_counts tasks) name
  = (if (count_category name tasks =? 0)%nat then None
     else Some (count_category name tasks))
  ∧ sum_list (List.map snd (category_counts tasks)) = length tasks.
Proof.
  split.
  - exact (count_loop_get l2_category tasks [] name).
  - exact (count_loop_sum l2_category tasks []).
Qed.

Lemma dict_get_cons {V : Type} (k key : string) (v : V) (d : list (string * V)) :
  dict_get ((k, v) :: d) key = if String.eqb k key then Some v else dict_get d key.
Proof. reflexivity. Qed.

Lemma count_cons (f : TaskConfig → string) (key : string) (t : TaskConfig)
    (l : list TaskConfig) :
  length (List.filter (λ t, String.eqb (f t) key) (t :: l))
  = (if String.eqb (f t) key then 1 else 0)
    + length (List.filter (λ t, String.eqb (f t) key) l).
Proof.
  cbn [List.filter]. now destruct (String.eqb (f t) key).
Qed.

Lemma three_counts_le (l : list TaskConfig) :
  (count_difficulty "easy" l + count_difficulty "medium" l + count_difficulty "hard" l
   <= length l)%nat.
Proof.
  unfold count_difficulty. induction l as [|t l IH]; [reflexivity|].
  rewrite !count_cons. cbn [length].
  destruct (String.eqb_spec (difficulty t) "easy") as [He | He];
    destruct (String.eqb_spec (difficulty t) "medium") as [Hm | Hm];
    destruct (String.eqb_spec (difficulty t) "hard") as [Hh | Hh];
    try (exfalso; congruence); lia.
Qed.

(** X22: after the loop, [difficulty_counts] maps each of [easy],
    [medium] and [hard] to the number of tasks of that difficulty, zero
    included; any other difficulty gets a key of its own when it occurs, so
    the three printed counts add up to the number of tasks exactly when
    every task has one of the three difficulties. *)
Theorem difficulty_counts_correct (tasks : list TaskConfig) :
  (∀ name, name ∈ ["easy"; "medium"; "hard"] →
     dict_get (difficulty_counts tasks) name = Some (count_difficulty name tasks))
  ∧ (∀ name, name ∉ ["easy"; "medium"; "hard"] →
       dict_get (difficulty_counts tasks) name
       = if (count_difficulty name tasks =? 0)%nat then None
         else Some (count_difficulty name tasks))
  ∧ (count_difficulty "easy" tasks + count_difficulty "medium" tasks
     + count_difficulty "hard" tasks = length tasks
     ↔ Forall (λ t, difficulty t ∈ ["easy"; "medium"; "hard"]) tasks).
Proof.
  split; [|split].
  - intros name Hin.
    unfold difficulty_counts. rewrite (count_loop_get difficulty tasks _ name).
    apply list_elem_of_In in Hin.
    destruct Hin as [<- | [<- | [<- | []]]]; reflexivity.
  - intros name Hnot.
    unfold difficulty_counts. rewrite (count_loop_get difficulty tasks _ name).
    assert (Hget : dict_get [("easy", 0); ("medium", 0); ("hard", 0)] name = None).
    { rewrite !dict_get_cons.
      destruct (String.eqb_spec "easy" name) as [<- | _]; [exfalso; apply Hnot; set_solver|].
      destruct (String.eqb_spec "medium" name) as [<- | _]; [exfalso; apply Hnot; set_solver|].
      destruct (String.eqb_spec "hard" name) as [<- | _]; [exfalso; apply Hnot; set_solver|].
      reflexivity. }
    now rewrite Hget.
  - induction tasks as [|t tasks IH]; [split; [constructor | reflexivity]|].
    rewrite Forall_cons. pose proof (three_counts_le tasks) as Hle.
    unfold count_difficulty in *. rewrite !count_cons. cbn [length].
    destruct (String.eqb_spec (difficulty t) "easy") as [He | He];
      destruct (String.eqb_spec (difficulty t) "medium") as [Hm | Hm];
      destruct (String.eqb_spec (difficulty t) "hard") as [Hh | Hh];
      try (exfalso; congruence).
    + split.
      * intros Hsum. split; [rewrite He; apply list_elem_of_In; simpl; tauto | apply (proj1 IH); lia].
      * intros [_ Hall]. apply (proj2 IH) in Hall. lia.
    + split.
      * intros Hsum. split; [rewrite Hm; apply list_elem_of_In; simpl; tauto | apply (proj1 IH); lia].
      * intros [_ Hall]. apply (proj2 IH) in Hall. lia.
    + split.
      * intros Hsum. split; [rewrite Hh; apply list_elem_of_In; simpl; tauto | apply (proj1 IH); lia].
      * intros [_ Hall]. apply (proj2 IH) in Hall. lia.
    + split.
      * intros Hsum. lia.
      * intros [Hin _]. exfalso.
        apply list_elem_of_In in Hin. destruct Hin as [H | [H | [H | []]]]; congruence.
Qed.

Lemma filter_none {A : Type} (p : A → bool) (l : list A) :
  (∀ a, In a l → p a = false) → List.filter p l = [].
Proof.
  induction l as [|x l IH]; intros Hp; simpl; [reflexivity|].
  rewrite (Hp x (or_introl eq_refl)). apply IH. intros a Ha. apply Hp. now right.
Qed.

Lemma StronglySorted_weaken {A : Type} (R R' : A → A → Prop) (l : list A) :
  (∀ a b, R a b → R' a b) → StronglySorted R l → StronglySorted R' l.
Proof.
  intros HR. induction 1 as [|x l Hl IH Hx]; constructor; [exact IH|].
  eapply Forall_impl; [exact Hx | exact (HR x)].
Qed.

Lemma filter_cons_app {A : Type} (p : A → bool) (x : A) (l : list A) :
  List.filter p (x :: l) = List.filter p [x] ++ List.filter p l.
Proof. simpl. now destruct (p x). Qed.

Section Sorting.

Context {A : Type} (key : A → Z).

Lemma insert_sorted_perm (x : A) (l : list A) : insert_sorted key x l ≡ₚ x :: l.
Proof.
  induction l as [|y l IH]; simpl; [reflexivity|].
  destruct (key x <? key y)%Z; [reflexivity|].
  rewrite IH. apply Permutation_swap.
Qed.

Lemma py_sorted_acc_perm (l acc : list A) :
  fold_left (λ acc x, insert_sorted key x acc) l acc ≡ₚ acc ++ l.
Proof.
  revert acc; induction l as [|x l IH]; intros acc; simpl.
  - now rewrite app_nil_r.
  - rewrite IH, insert_sorted_perm. simpl. apply Permutation_middle.
Qed.

Lemma insert_sorted_sorted (x : A) (l : list A) :
  StronglySorted (λ a b, (key a <= key b)%Z) l →
  StronglySorted (λ a b, (key a <= key b)%Z) (insert_sorted key x l).
Proof.
  induction 1 as [|y l Hl IH Hy]; simpl; [repeat constructor|].
  destruct (Z.ltb_spec (key x) (key y)) as [Hlt | Hge].
  - constructor; [now constructor|].
    constructor; [lia|]. eapply Forall_impl; [exact Hy|]. simpl. intros; lia.
  - constructor; [exact IH|].
    rewrite insert_sorted_perm. now constructor.
Qed.

Lemma py_sorted_acc_sorted (l acc : list A) :
  StronglySorted (λ a b, (key a <= key b)%Z) acc →
  StronglySorted (λ a b, (key a <= key b)%Z)
                 (fold_left (λ acc x, insert_sorted key x acc) l acc).
Proof.
  revert acc; induction l as [|x l IH]; intros acc Hacc; [exact Hacc|].
  apply IH, insert_sorted_sorted, Hacc.
Qed.

Lemma insert_sorted_filter (k : Z) (x : A) (l : list A) :
  StronglySorted (λ a b, (key a <= key b)%Z) l →
  List.filter (λ a, (key a =? k)%Z) (insert_sorted key x l)
  = List.filter (λ a, (key a =? k)%Z) l ++ List.filter (λ a, (key a =? k)%Z) [x].
Proof.
  induction 1 as [|y l Hl IH Hy]; [reflexivity|].
  cbn [insert_sorted]. destruct (Z.ltb_spec (key x) (key y)) as [Hlt | Hge].
  - rewrite (filter_cons_app _ x (y :: l)).
    destruct (key x =? k)%Z eqn:Hk.
    + apply Z.eqb_eq in Hk.
      rewrite (filter_none (λ a, (key a =? k)%Z) (y :: l)); [now rewrite app_nil_r|].
      intros a [<- | Ha]; apply Z.eqb_neq; [lia|].
      rewrite Forall_forall in Hy. apply list_elem_of_In, Hy in Ha. lia.
    + rewrite (filter_none (λ a, (key a =? k)%Z) [x]); [now rewrite app_nil_r|].
      now intros a [<- | []].
  - rewrite (filter_cons_app _ y (insert_sorted key x l)), IH.
    rewrite (filter_cons_app _ y l). now rewrite app_assoc.
Qed.

Lemma py_sorted_acc_filter (k : Z) (l acc : list A) :
  StronglySorted (λ a b, (key a <= key b)%Z) acc →
  List.filter (λ a, (key a =? k)%Z) (fold_left (λ acc x, insert_sorted key x acc) l acc)
  = List.filter (λ a, (key a =? k)%Z) acc ++ List.filter (λ a, (key a =? k)%Z) l.
Proof.
  revert acc; induction l as [|x l IH]; intros acc Hacc; simpl.
  - now rewrite app_nil_r.
  - rewrite IH by now apply insert_sorted_sorted.
    rewrite insert_sorted_filter by exact Hacc. simpl.
    destruct (key x =? k)%Z; [now rewrite <- app_assoc | now rewrite app_nil_r].
Qed.

End Sorting.

Lemma dict_set_keys {V : Type} (d : list (string * V)) (key : string) (v : V) :
  List.map fst (dict_set d key v)
  = if existsb (String.eqb key) (List.map fst d) then List.map fst d
    else List.map fst d ++ [key].
Proof.
  induction d as [|[k w] d IH]; [reflexivity|].
  cbn [dict_set List.map fst existsb].
  rewrite (String.eqb_sym key k).
  destruct (String.eqb k key); [reflexivity|].
  cbn [List.map fst orb]. rewrite IH.
  now destruct (existsb (String.eqb key) (List.map fst d)).
Qed.

Lemma filter_filter {A : Type} (p q : A → bool) (l : list A) :
  List.filter p (List.filter q l) = List.filter (λ y, q y && p y) l.
Proof.
  induction l as [|x l IH]; [reflexivity|].
  cbn [List.filter]. destruct (q x); cbn [List.filter andb]; [|exact IH].
  now rewrite IH.
Qed.

Lemma filter_all {A : Type} (l : list A) : List.filter (λ _, true) l = l.
Proof. induction l as [|x l IH]; [reflexivity|]. cbn [List.filter]. now rewrite IH. Qed.

(** The keys of the dict that the counting loop returns: those of the
    start, then the new ones in the order in which they first occur. *)
Lemma count_loop_keys (f : TaskConfig → string) (tasks : list TaskConfig)
    (d : list (string * nat)) :
  List.map fst (fold_left (λ d t, dict_set d (f t) (default 0 (dict_get d (f t)) + 1)) tasks d)
  = List.map fst d
    ++ List.filter (λ y, negb (existsb (String.eqb y) (List.map fst d)))
                   (first_seen (List.map f tasks)).
Proof.
  revert d; induction tasks as [|t tasks IH]; intros d.
  - simpl. now rewrite app_nil_r.
  - cbn [fold_left List.map first_seen List.filter]. rewrite IH, dict_set_keys.
    destruct (existsb (String.eqb (f t)) (List.map fst d)) eqn:Hin; cbn [negb].
    + f_equal. rewrite filter_filter. apply List.filter_ext_in. intros y _.
      destruct (String.eqb_spec (f t) y) as [<- | _]; [|reflexivity].
      now rewrite Hin.
    + rewrite <- app_assoc. cbn [app]. do 2 f_equal.
      rewrite filter_filter. apply List.filter_ext. intros y.
      rewrite List.existsb_app. cbn [existsb]. rewrite orb_false_r, negb_orb.
      now rewrite (String.eqb_sym y (f t)), andb_comm.
Qed.

(** X23: the category lines are printed from most to fewest tasks: the
    sorted list holds the items of [category_counts], each once, in
    non-increasing order of count, and categories with the same count stay
    in the order in which they first occurred, which is the order of the
    keys of [category_counts]. *)
Theorem sorted_categories_correct (tasks : list TaskConfig) :
  sorted_categories tasks ≡ₚ category_counts tasks
  ∧ StronglySorted (λ a b : string * nat, (b.2 <= a.2)%nat) (sorted_categories tasks)
  ∧ (∀ n, List.filter (λ a : string * nat, (a.2 =? n)%nat) (sorted_categories tasks)
          = List.filter (λ a : string * nat, (a.2 =? n)%nat) (category_counts tasks))
  ∧ List.map fst (category_counts tasks) = first_seen (List.map l2_category tasks).
Proof.
  unfold sorted_categories, py_sorted. split; [|split; [|split]].
  4: { unfold category_counts. rewrite (count_loop_keys l2_category tasks []).
       cbn [List.map app existsb negb]. apply filter_all. }
  - now rewrite py_sorted_acc_perm.
  - eapply StronglySorted_weaken; [|apply py_sorted_acc_sorted; constructor].
    simpl. intros a b. lia.
  - intros n.
    assert (Hext : ∀ a : string * nat,
               (a.2 =? n)%nat = (- Z.of_nat a.2 =? - Z.of_nat n)%Z).
    { intros a. destruct (Nat.eqb_spec a.2 n) as [-> | Hne]; symmetry.
      - now apply Z.eqb_eq.
      - apply Z.eqb_neq. lia. }
    rewrite !(List.filter_ext _ _ Hext).
    rewrite py_sorted_acc_filter by constructor. reflexivity.
Qed.

Lemma run_summary (cfg : region_config) :
  sorted_categories (all_tasks_of cfg)
  = [("cars_trucks", 30); ("motorcycles", 25); ("rvs_camp", 23); ("boats", 22)]
  ∧ difficulty_counts (all_tasks_of cfg) = [("easy", 1); ("medium", 32); ("hard", 67)].
Proof. split; vm_compute; reflexivity. Qed.

(** X24: for every valid region key the summary lists [cars_trucks] with
    30 tasks, [motorcycles] with 25, [rvs_camp] with 23 and [boats] with 22,
    in this order, and counts 1 easy, 32 medium and 67 hard tasks. *)
Theorem summary_of_run (r : string) :
  r ∈ REGIONS_items.*1 →
  ∃ tasks,
    run_generators generators r [] = Ok tasks
    ∧ sorted_categories tasks
      = [("cars_trucks", 30); ("motorcycles", 25); ("rvs_camp", 23); ("boats", 22)]
    ∧ difficulty_counts tasks = [("easy", 1); ("medium", 32); ("hard", 67)].
Proof.
  intros [cfg Hcfg]%REGIONS_choice. exists (all_tasks_of cfg).
  split; [now apply run_generators_spec | apply run_summary].
Qed.

Lemma summary_of_run_witness :
  ∃ tasks,
    run_generators generators "sfbay" [] = Ok tasks
    ∧ sorted_categories tasks
      = [("cars_trucks", 30); ("motorcycles", 25); ("rvs_camp", 23); ("boats", 22)]
    ∧ difficulty_counts tasks = [("easy", 1); ("medium", 32); ("hard", 67)].
Proof.
  apply (summary_of_run "sfbay").
  apply (bool_decide_unpack _). vm_compute. exact I.
Defined.

End Summary.
